(** * UMI-MIRU dashboard: derivation functions of [main.py]

    A shallow embedding of the pure parts of the dashboard script: the
    lunar tide calculator, the wave-status and wind-risk classifiers, the
    Tokyo demand predictor, the per-location day-summary matrix and the
    24 hour wind table.

    Conventions of the embedding.
    - A Python [float] is a rational [Q]; comparisons are the exact ones.
      Every threshold of the script (10, 5, 2.5, 1.5, 50) is exact in both
      readings.
    - A JSON [null] is [None]; inside a pandas column it is the missing
      value (NaN), again [None].
    - A Python exception is the [Raise] outcome of the [result] type.
    - The wall clock ([datetime.now()]) and the HTTP fetches are arguments
      of the functions that read them. *)

From Stdlib Require Import ZArith QArith Qround Qabs List String Ascii Bool Lia.
From Stdlib Require Import Sorted DecimalString.
From Stdlib Require Import Lqa.
Import ListNotations.

Open Scope Z_scope.

(* ------------------------------------------------------------------ *)
(** ** Outcomes of fallible Python code *)

Inductive exn : Type :=
| IndexError
| TypeError
| ValueError.

Inductive result (A : Type) : Type :=
| Ok (a : A)
| Raise (e : exn).

Arguments Ok {A} a.
Arguments Raise {A} e.

Definition bind {A B : Type} (r : result A) (k : A -> result B) : result B :=
  match r with
  | Ok a => k a
  | Raise e => Raise e
  end.

Notation "x <- r ;; k" := (bind r (fun x => k))
  (at level 61, r at next level, right associativity).

(* ------------------------------------------------------------------ *)
(** ** Python numbers *)

Module PyNum.

(** [x < y] and [x >= y] on floats, as booleans. *)
Definition ltb (x y : Q) : bool := negb (Qle_bool y x).
Definition geb (x y : Q) : bool := Qle_bool y x.

(** [round(x)]: nearest integer, ties to the even one. *)
Definition round_half_even (x : Q) : Z :=
  let f := Qfloor x in
  match Qcompare (x - inject_Z f) (1 # 2) with
  | Lt => f
  | Gt => f + 1
  | Eq => if Z.even f then f else f + 1
  end.

(** [round(x, 1)] and [Series.round(1)]: nearest multiple of one tenth.
    The result is kept in lowest terms, so equal values are identical. *)
Definition round1 (x : Q) : Q :=
  Qred (inject_Z (round_half_even (x * 10)) / 10).

(** [a % b] on floats with [b > 0]: the result has the sign of [b]. *)
Definition float_mod (a b : Q) : Q :=
  a - b * inject_Z (Qfloor (a / b)).

(** [str(n)] for an [int]. *)
Definition str_int (n : Z) : string :=
  NilZero.string_of_int (Z.to_int n).

(** [f"{x:.1f}"]: sign, integer part, a dot, one digit. *)
Definition format_1f (x : Q) : string :=
  let t := round_half_even (Qabs x * 10) in
  ((if ltb x 0 then "-" else "") ++
   str_int (t / 10) ++ "." ++ str_int (t mod 10))%string.

End PyNum.

(* ------------------------------------------------------------------ *)
(** ** Calendar dates ([datetime.date]) *)

Module Calendar.

Record date : Type := mkdate { year : Z; month : Z; day : Z }.

Definition date_eqb (a b : date) : bool :=
  (year a =? year b) && (month a =? month b) && (day a =? day b).

Definition is_leap (y : Z) : bool :=
  (y mod 4 =? 0) && (negb (y mod 100 =? 0) || (y mod 400 =? 0)).

Definition days_before_year (y : Z) : Z :=
  let p := y - 1 in p * 365 + p / 4 - p / 100 + p / 400.

Definition DAYS_BEFORE_MONTH : list Z :=
  [0; 31; 59; 90; 120; 151; 181; 212; 243; 273; 304; 334].

Definition days_before_month (y m : Z) : Z :=
  nth (Z.to_nat (m - 1)) DAYS_BEFORE_MONTH 0
  + (if (2 <? m) && is_leap y then 1 else 0).

(** [date.toordinal()]: 0001-01-01 is day 1. *)
Definition toordinal (d : date) : Z :=
  days_before_year (year d) + days_before_month (year d) (month d) + day d.

(** [(a - b).days] *)
Definition sub_days (a b : date) : Z := toordinal a - toordinal b.

(** [datetime]: a date and the microseconds elapsed since midnight. *)
Record datetime : Type := mkdatetime { dt_date : date; dt_micro : Z }.

Definition timestamp (t : datetime) : Z :=
  toordinal (dt_date t) * 86400000000 + dt_micro t.

(** [a >= b] on datetimes. *)
Definition datetime_geb (a b : datetime) : bool :=
  timestamp b <=? timestamp a.

End Calendar.

(* ------------------------------------------------------------------ *)
(** ** Lunar tide calculator *)

Module Lunar.
Import Calendar.

Definition known_new_moon : date := mkdate 2000 1 6.

(** [calculate_moon_age(date)] *)
Definition calculate_moon_age (d : date) : Q :=
  let days_diff := sub_days d known_new_moon in
  let moon_age := PyNum.float_mod (inject_Z days_diff) 29.53059 in
  PyNum.round1 moon_age.

(** [x in xs] for a list of integers. *)
Definition py_in (x : Z) (xs : list Z) : bool := existsb (Z.eqb x) xs.

(** [get_tide_name(moon_age)] *)
Definition get_tide_name (moon_age : Q) : string :=
  let ma := PyNum.round_half_even moon_age in
  if py_in ma [0; 1; 2; 14; 15; 16; 29; 30] then "大潮"
  else if py_in ma [3; 4; 5; 17; 18; 19] then "中潮"
  else if py_in ma [6; 7; 8; 9; 20; 21; 22; 23] then "小潮"
  else if py_in ma [10; 11; 12; 24; 25; 26] then "長潮/若潮"
  else "中潮".

End Lunar.

(* ------------------------------------------------------------------ *)
(** ** Wave-status classifier *)

Module Wave.

(** [get_wave_status_text(wave_height)] *)
Definition get_wave_status_text (wave_height : option Q) : string :=
  match wave_height with
  | None => "不明"
  | Some h =>
      if PyNum.geb h 2.5 then "時化"
      else if PyNum.geb h 1.5 then "注意"
      else "凪"
  end.

End Wave.

(* ------------------------------------------------------------------ *)
(** ** Demand predictor *)

Module Demand.

(** The [daily] object of the weather payload: parallel arrays, one slot
    per calendar date.  A slot of a numeric array may be [null]. *)
Record Daily : Type := mkDaily {
  time : list string;
  temperature_2m_max : list (option Q);
  precipitation_probability_max : list (option Z)
}.

(** The loop over [enumerate(daily_data['time'])]: the index of the first
    entry equal to [today_str], counting from [i]; [-1] when the loop ends
    without a [break]. *)
Fixpoint find_today (today_str : string) (dates : list string) (i : Z) : Z :=
  match dates with
  | [] => -1
  | date_str :: rest =>
      if String.eqb date_str today_str then i
      else find_today today_str rest (i + 1)
  end.

(** [xs[i]] for [i >= 0]. *)
Definition getitem {A : Type} (xs : list A) (i : Z) : result A :=
  match nth_error xs (Z.to_nat i) with
  | Some x => Ok x
  | None => Raise IndexError
  end.

(** A comparison of a JSON number with a constant; [None < 10] raises. *)
Definition number {A : Type} (v : option A) : result A :=
  match v with
  | Some x => Ok x
  | None => Raise TypeError
  end.

(** [" / ".join(recommendation)] *)
Definition join (sep : string) (parts : list string) : string :=
  String.concat sep parts.

(** [get_tokyo_demand_prediction(tokyo_weather_data)], with the clock read
    passed as [today_str].  The argument is [None] for a payload that is
    [None] or empty, and [Some None] for one without a ['daily'] key. *)
Definition get_tokyo_demand_prediction
    (today_str : string) (tokyo_weather_data : option (option Daily))
    : result string :=
  match tokyo_weather_data with
  | None | Some None => Ok "データなし"%string
  | Some (Some daily_data) =>
      let today_index := find_today today_str (time daily_data) 0 in
      recommendation <-
        (if negb (today_index =? -1) then
           temp_v <- getitem (temperature_2m_max daily_data) today_index ;;
           temp_today_max <- number temp_v ;;
           let r1 := if PyNum.ltb temp_today_max 10
                     then ["気温低下(鍋)"%string] else [] in
           precip_v <-
             getitem (precipitation_probability_max daily_data) today_index ;;
           precip_prob <- number precip_v ;;
           let r2 := if 50 <=? precip_prob
                     then r1 ++ [("雨" ++ PyNum.str_int precip_prob
                                  ++ "%(客足)")%string]
                     else r1 in
           Ok r2
         else Ok []) ;;
      match recommendation with
      | _ :: _ => Ok (join " / " recommendation)
      | [] => Ok "特になし"%string
      end
  end.

End Demand.

(* ------------------------------------------------------------------ *)
(** ** Day-summary matrix (left column of the page) *)

Module Matrix.
Import Calendar.

(** The ['hourly'] object of the marine payload; the timestamps are the
    parsed values of [datetime.fromisoformat]. *)
Record Hourly : Type := mkHourly {
  time : list datetime;
  wave_height : list (option Q)
}.

(** Indices [j] of [times], counted from [j0], whose date is [d]. *)
Fixpoint indices_from (j0 : nat) (times : list datetime) (d : date)
    : list nat :=
  match times with
  | [] => []
  | t :: rest =>
      if date_eqb (dt_date t) d
      then j0 :: indices_from (S j0) rest d
      else indices_from (S j0) rest d
  end.

Definition current_day_indices (h : Hourly) (d : date) : list nat :=
  indices_from 0 (time h) d.

(** [[w[j] for j in indices if w[j] is not None]] *)
Fixpoint daily_waves (w : list (option Q)) (indices : list nat)
    : result (list Q) :=
  match indices with
  | [] => Ok []
  | j :: rest =>
      v <- Demand.getitem w (Z.of_nat j) ;;
      tl <- daily_waves w rest ;;
      match v with
      | Some x => Ok (x :: tl)
      | None => Ok tl
      end
  end.

Definition sum (xs : list Q) : Q := fold_right Qplus 0%Q xs.

(** [np.mean(xs)] for a non-empty list. *)
Definition np_mean (xs : list Q) : Q :=
  (sum xs / inject_Z (Z.of_nat (List.length xs)))%Q.

(** One cell of the matrix, before it is printed. *)
Inductive cell : Type :=
| Summary (avg_wave : Q) (moon_age_val : Q)
| NoData
| NoCoverage
| FetchFailed.

(** The body of the loop over [dates] for one location with data. *)
Definition day_cell (h : Hourly) (d : date) : result cell :=
  let indices := current_day_indices h d in
  match indices with
  | _ :: _ =>
      ws <- daily_waves (wave_height h) indices ;;
      match ws with
      | _ :: _ => Ok (Summary (np_mean ws) (Lunar.calculate_moon_age d))
      | [] => Ok NoData
      end
  | [] => Ok NoCoverage
  end.

(** The text written into the row. *)
Definition cell_text (c : cell) : string :=
  match c with
  | Summary avg_wave moon_age_val =>
      (Wave.get_wave_status_text (Some avg_wave) ++ " "
       ++ PyNum.format_1f avg_wave ++ "m ("
       ++ Lunar.get_tide_name moon_age_val ++ ", 月齢"
       ++ PyNum.format_1f moon_age_val ++ ")")%string
  | NoData => "データなし"
  | NoCoverage => "-"
  | FetchFailed => "取得失敗"
  end.

Fixpoint mapM {A B : Type} (f : A -> result B) (xs : list A)
    : result (list B) :=
  match xs with
  | [] => Ok []
  | x :: rest => y <- f x ;; ys <- mapM f rest ;; Ok (y :: ys)
  end.

(** One row: the cells of [dates] in order.  [marine_data] is [None] for
    a failed fetch or an empty payload, [Some None] for a payload without
    an ['hourly'] key. *)
Definition row_data (marine_data : option (option Hourly))
    (dates : list date) : result (list (date * string)) :=
  match marine_data with
  | Some (Some h) =>
      mapM (fun d => c <- day_cell h d ;; Ok (d, cell_text c)) dates
  | _ => Ok (map (fun d => (d, cell_text FetchFailed)) dates)
  end.

(** [LOCATIONS], in the order of the dictionary literal. *)
Inductive kind : Type := marine | weather.

Definition LOCATIONS : list (string * (Q * Q * kind)) :=
  [ ("北海道 別海"%string, (43.39, 145.12, marine)%Q);
    ("北海道 函館"%string, (41.76, 140.74, marine)%Q);
    ("宮城 石巻"%string, (38.41, 141.32, marine)%Q);
    ("福島 相馬"%string, (37.83, 140.95, marine)%Q);
    ("富山 魚津"%string, (36.83, 137.40, marine)%Q);
    ("兵庫 香住"%string, (35.64, 134.63, marine)%Q);
    ("京都 舞鶴"%string, (35.60, 135.30, marine)%Q);
    ("千葉 勝浦"%string, (35.15, 140.32, marine)%Q);
    ("静岡 焼津"%string, (34.86, 138.33, marine)%Q);
    ("香川 多度津"%string, (34.27, 133.75, marine)%Q);
    ("徳島"%string, (34.00, 134.70, marine)%Q);
    ("福岡 博多"%string, (33.60, 130.40, marine)%Q);
    ("東京"%string, (35.66, 139.79, weather)%Q) ].

Definition marine_keys : list string :=
  map fst
    (filter (fun kv => match snd (snd kv) with marine => true | _ => false end)
       LOCATIONS).

(** The matrix: one row per marine location.  [get_marine_data] stands
    for the cached HTTP fetch. *)
Definition marine_matrix_data
    (get_marine_data : string -> option (option Hourly))
    (dates : list date) : result (list (string * list (date * string))) :=
  mapM (fun loc_name =>
          r <- row_data (get_marine_data loc_name) dates ;;
          Ok (loc_name, r))
       marine_keys.

End Matrix.

(* ------------------------------------------------------------------ *)
(** ** Wind table and banner (right column of the page) *)

Module Wind.
Import Calendar.

(** The two columns of [pd.DataFrame(tokyo_weather['hourly'])] that the
    table reads, after [pd.to_datetime]. *)
Record Hourly : Type := mkHourly {
  time : list datetime;
  wind_speed_10m : list (option Q)
}.

Record row : Type := mkrow { r_time : datetime; r_wind : option Q }.

(** [pd.DataFrame(dict)]: the arrays must have one length. *)
Definition DataFrame (h : Hourly) : result (list row) :=
  if (List.length (time h) =? List.length (wind_speed_10m h))%nat
  then Ok (map (fun tw => mkrow (fst tw) (snd tw))
             (combine (time h) (wind_speed_10m h)))
  else Raise ValueError.

(** [hourly_df[hourly_df['time'] >= now]] *)
Definition hourly_df (rows : list row) (now : datetime) : list row :=
  filter (fun r => datetime_geb (r_time r) now) rows.

(** [.head(24)] followed by [.round(1)] on the wind column.  The
    [time_str] label that becomes the index is a rendering of [r_time]
    and is left out. *)
Definition display_df (rows : list row) (now : datetime) : list row :=
  map (fun r => mkrow (r_time r) (option_map PyNum.round1 (r_wind r)))
      (firstn 24 (hourly_df rows now)).

(** One step of the running maximum: a missing value is skipped. *)
Definition nanmax (acc v : option Q) : option Q :=
  match acc, v with
  | None, _ => v
  | Some a, None => Some a
  | Some a, Some b => if Qle_bool a b then Some b else Some a
  end.

(** [Series.max()]: missing values are skipped; the maximum of nothing
    is missing. *)
Definition series_max (col : list (option Q)) : option Q :=
  fold_left nanmax col None.

Definition max_wind_24h (rows : list row) (now : datetime) : option Q :=
  series_max (map r_wind (display_df rows now)).

(** [highlight_wind(val)] *)
Definition highlight_wind (val : Q) : string :=
  if PyNum.geb val 10 then "background-color: #ffcccc"
  else if PyNum.geb val 5 then "background-color: #ffffcc"
  else "".

(** The three Streamlit calls of the banner. *)
Inductive banner : Type :=
| st_error (msg : string)
| st_warning (msg : string)
| st_success (msg : string).

(** The banner for [max_wind_24h]; a missing maximum compares false. *)
Definition wind_banner (m : option Q) : banner :=
  match m with
  | Some v =>
      if PyNum.geb v 10
      then st_error ("🔴 今後24時間: 最大" ++ PyNum.format_1f v
                     ++ "m/s の強風予報")
      else if PyNum.geb v 5
      then st_warning ("🟡 今後24時間: 最大" ++ PyNum.format_1f v
                       ++ "m/s の風あり")
      else st_success "🔵 今後24時間は穏やか"
  | None => st_success "🔵 今後24時間は穏やか"
  end.

End Wind.

(* ------------------------------------------------------------------ *)
(** ** Reference readings used by the statements *)

Module Reading.
Import Calendar.
Local Open Scope Q_scope.

(** The samples of one date as pairs: the wave-height slots of the
    timestamps that fall on [d], in series order. *)
Definition samples_on (h : Matrix.Hourly) (d : date) : list (option Q) :=
  map snd
    (filter (fun tw => date_eqb (dt_date (fst tw)) d)
       (combine (Matrix.time h) (Matrix.wave_height h))).

(** The present values of a list of slots, in order. *)
Fixpoint present (xs : list (option Q)) : list Q :=
  match xs with
  | [] => []
  | Some x :: rest => x :: present rest
  | None :: rest => present rest
  end.






End Reading.

(* ------------------------------------------------------------------ *)
(** ** Sample payloads *)

Module Samples.
Import Calendar.
Local Open Scope Q_scope.

(** Hourly rows on date [d], on the hour, starting at hour [h0]. *)
Fixpoint hours_of (d : date) (h0 : Z) (speeds : list (option Q))
    : list Wind.row :=
  match speeds with
  | [] => []
  | v :: rest =>
      Wind.mkrow (mkdatetime d (h0 * 3600000000)%Z) v
      :: hours_of d (h0 + 1)%Z rest
  end.

Definition nov3 : date := mkdate 2026 11 3.
Definition nov4 : date := mkdate 2026 11 4.

Definition speeds_day1 : list (option Q) :=
  [Some 3.14; Some 3.26; Some 4.05; Some 4.4; Some 5.25; Some 6.1;
   Some 7.77; Some 8.2; Some 9.96; Some 9.5; Some 9.1; None;
   Some 8.8; Some 8.15; Some 7.3; Some 6.6; Some 6.2; Some 5.5;
   Some 5.1; Some 4.9; Some 4.2; Some 3.9; Some 3.3; Some 2.8].

Definition speeds_day2 : list (option Q) :=
  [Some 12.5; Some 13.1; Some 11.2; Some 10.4; Some 9.9; Some 9.2].

(** Thirty hourly samples from 2026-11-03 00:00 on. *)
Definition thirty_hours : list Wind.row :=
  hours_of nov3 0 speeds_day1 ++ hours_of nov4 0 speeds_day2.

Definition midnight : datetime := mkdatetime nov3 0.

(** A daily series of three days starting on 2026-11-03. *)
Definition daily_cold_wet : Demand.Daily :=
  Demand.mkDaily ["2026-11-03"; "2026-11-04"; "2026-11-05"]%string
                 [Some 9; Some 15; Some 12]
                 [Some 60; Some 10; Some 30]%Z.

Definition daily_mild_dry : Demand.Daily :=
  Demand.mkDaily ["2026-11-02"; "2026-11-03"; "2026-11-04"]%string
                 [Some 8; Some 15; Some 12]
                 [Some 70; Some 10; Some 30]%Z.

(** A daily series that starts tomorrow. *)
Definition daily_from_tomorrow : Demand.Daily :=
  Demand.mkDaily ["2026-11-04"; "2026-11-05"]%string
                 [Some 9; Some 12]
                 [Some 60; Some 10]%Z.

(** Marine samples: four on 2026-11-03 with one gap, two nulls on
    2026-11-04, nothing later. *)
Definition marine_hourly : Matrix.Hourly :=
  Matrix.mkHourly
    [mkdatetime nov3 0; mkdatetime nov3 3600000000;
     mkdatetime nov3 7200000000; mkdatetime nov3 10800000000;
     mkdatetime nov4 0; mkdatetime nov4 3600000000]%Z
    [Some 1.0; Some 2.0; None; Some 3.0; None; None].

End Samples.

(* ------------------------------------------------------------------ *)
(** ** Page helpers: cell colours, sidebar default, image proxy *)

Module Page.
Local Open Scope string_scope.

(** [needle in s] for two strings.  The strings are UTF-8 bytes; a match
    of encoded text starts on a character boundary, so this is the
    containment of the characters. *)
Fixpoint contains (needle s : string) : bool :=
  String.prefix needle s
  || match s with
     | EmptyString => false
     | String _ rest => contains needle rest
     end.

(** [highlight_status(val)] *)
Definition highlight_status (val_str : string) : string :=
  let '(color, weight) :=
    if contains "時化" val_str then ("red", "bold")
    else if contains "注意" val_str then ("orange", "bold")
    else if contains "凪" val_str then ("blue", "bold")
    else ("black", "normal") in
  ("color: " ++ color ++ "; font-weight: " ++ weight)%string.

(** [x in keys] for a list of strings. *)
Definition str_in (x : string) (keys : list string) : bool :=
  existsb (String.eqb x) keys.

(** [keys.index(x)]: the first position of [x]; [ValueError] without
    one. *)
Fixpoint list_index (x : string) (keys : list string) : result nat :=
  match keys with
  | [] => Raise ValueError
  | k :: rest =>
      if String.eqb k x then Ok 0%nat
      else i <- list_index x rest ;; Ok (S i)
  end.

(** The two lines that compute [default_index] for the select box. *)
Definition default_index (keys : list string) : result nat :=
  if str_in "千葉 勝浦" keys then list_index "千葉 勝浦" keys else Ok 0%nat.

(** [s.replace(old, new)] for a non-empty [old]: the occurrences are
    found from the left and do not overlap.  [skip] counts the characters
    of a match that are still to be dropped. *)
Fixpoint replace_from (old new : string) (skip : nat) (s : string)
    : string :=
  match s with
  | EmptyString => EmptyString
  | String c rest =>
      match skip with
      | S k => replace_from old new k rest
      | O =>
          if String.prefix old s
          then (new ++ replace_from old new (String.length old - 1) rest)%string
          else String c (replace_from old new 0 rest)
      end
  end.

Definition replace (old new s : string) : string := replace_from old new 0 s.

(** [get_proxy_url(url)] *)
Definition get_proxy_url (url : string) : string :=
  let clean_url := replace "https://" "" url in
  ("https://wsrv.nl/?url=" ++ clean_url ++ "&output=webp")%string.

(** The style of every cell of a row, as [Styler.map] applies it. *)
Definition row_styles (row : list (Calendar.date * string))
    : list (Calendar.date * string) :=
  map (fun kv => (fst kv, highlight_status (snd kv))) row.

End Page.

(* ------------------------------------------------------------------ *)
(** ** Byte-level readings of texts *)

Module Bytes.

(** No character of [s] is the byte [b]. *)
Fixpoint lacks (b : ascii) (s : string) : bool :=
  match s with
  | EmptyString => true
  | String c rest => negb (Ascii.eqb c b) && lacks b rest
  end.

(** The second byte of "時" and the second byte of "注". *)
Definition b99 : ascii := Ascii.ascii_of_nat 153.
Definition bB3 : ascii := Ascii.ascii_of_nat 179.

End Bytes.

(* ------------------------------------------------------------------ *)
(** ** Column labels and the row dictionary *)

Module Columns.
Import Calendar.
Local Open Scope string_scope.

(** Two digits with a leading zero, as [%m] and [%d] print. *)
Definition pad2 (n : Z) : string :=
  if (n <? 10)%Z then "0" ++ PyNum.str_int n else PyNum.str_int n.

(** [date.strftime('%m/%d')] *)
Definition date_col (d : date) : string :=
  pad2 (month d) ++ "/" ++ pad2 (day d).

(** [d[k] = v] on a dictionary kept in insertion order: an existing key
    keeps its place and gets the new value, a new key goes to the end. *)
Fixpoint dict_set (k v : string) (d : list (string * string))
    : list (string * string) :=
  match d with
  | [] => [(k, v)]
  | (k', v') :: rest =>
      if String.eqb k' k then (k', v) :: rest
      else (k', v') :: dict_set k v rest
  end.

(** The dictionary of one row: the location under "拠点", then each cell
    stored under the label of its date. *)
Definition row_dict (loc_name : string) (row : list (date * string))
    : list (string * string) :=
  fold_left (fun acc kv => dict_set (date_col (fst kv)) (snd kv) acc)
            row [("拠点", loc_name)].

(** Month and day in the ranges of a calendar date. *)
Definition month_day_ok (d : date) : Prop :=
  (1 <= month d <= 12)%Z /\ (1 <= day d <= 31)%Z.

End Columns.

(* ================================================================== *)
(** * Properties *)

Example toordinal_known_new_moon :
  Calendar.toordinal Lunar.known_new_moon = 730125.
Proof. reflexivity. Qed.

Example format_1f_samples :
  PyNum.format_1f 2 = "2.0"%string /\
  PyNum.format_1f 0.25 = "0.2"%string /\
  PyNum.format_1f 12.36 = "12.4"%string /\
  PyNum.format_1f (-1.5) = "-1.5"%string.
Proof. repeat split; reflexivity. Qed.

Example moon_age_samples :
  (Lunar.calculate_moon_age (Calendar.mkdate 2000 1 6) == 0 /\
   Lunar.calculate_moon_age (Calendar.mkdate 2000 1 21) == 15 /\
   Lunar.calculate_moon_age (Calendar.mkdate 2000 1 5) == 28.5 /\
   Lunar.calculate_moon_age (Calendar.mkdate 2026 11 3) == 23.4)%Q.
Proof. repeat split; vm_compute; reflexivity. Qed.

(* ------------------------------------------------------------------ *)
(** ** Rounding and the float remainder *)

Section Rounding.
Import PyNum.
Local Open Scope Q_scope.

Lemma geb_true (x y : Q) : geb x y = true <-> y <= x.
Proof. unfold geb. apply Qle_bool_iff. Qed.

Lemma geb_false (x y : Q) : geb x y = false <-> x < y.
Proof.
  unfold geb. split; intro H.
  - apply Qnot_le_lt. intro C. apply Qle_bool_iff in C. congruence.
  - destruct (Qle_bool y x) eqn:E; [|reflexivity].
    apply Qle_bool_iff in E. exfalso. exact (Qlt_not_le _ _ H E).
Qed.

Lemma ltb_true (x y : Q) : ltb x y = true <-> x < y.
Proof.
  unfold ltb. rewrite negb_true_iff. apply (geb_false x y).
Qed.

Lemma ltb_false (x y : Q) : ltb x y = false <-> y <= x.
Proof.
  unfold ltb. rewrite negb_false_iff. apply (geb_true x y).
Qed.



Lemma round_half_even_Z (m : Z) : round_half_even (inject_Z m) = m.
Proof.
  unfold round_half_even. rewrite Qfloor_Z.
  assert (C : (inject_Z m - inject_Z m ?= 1 # 2) = Lt).
  { rewrite <- Qlt_alt.
    setoid_replace (inject_Z m - inject_Z m) with 0 by ring.
    reflexivity. }
  rewrite C. reflexivity.
Qed.







End Rounding.

(* ------------------------------------------------------------------ *)
(** ** Lunar tide calculator *)

Open Scope Q_scope.

Lemma py_in_In (x : Z) (xs : list Z) : Lunar.py_in x xs = true <-> In x xs.
Proof.
  unfold Lunar.py_in. rewrite existsb_exists. split.
  - intros [y [Hy E]]. apply Z.eqb_eq in E. subst y. exact Hy.
  - intro H. exists x. split; [exact H|apply Z.eqb_refl].
Qed.

Lemma py_in_not_In (x : Z) (xs : list Z) :
  ~ In x xs -> Lunar.py_in x xs = false.
Proof.
  intro N. destruct (Lunar.py_in x xs) eqn:E; [|reflexivity].
  apply py_in_In in E. contradiction.
Qed.

Ltac tide_cases H :=
  simpl in H;
  repeat (destruct H as [H|H]; [subst; reflexivity|]);
  contradiction.

(** C1. On an integer moon age [m] the tide name is decided by exact
    membership in the four bucket lists: spring tide for
    0,1,2,14,15,16,29,30; mid tide for 3,4,5,17,18,19; neap tide for
    6..9 and 20..23; slack tide for 10,11,12,24,25,26; every integer in
    none of them (13, 27, 28 and 31 among them) gets mid tide.  The
    function is total, so no input raises, and 30 is a spring tide. *)
Theorem get_tide_name_buckets (m : Z) :
  (In m [0; 1; 2; 14; 15; 16; 29; 30]%Z ->
   Lunar.get_tide_name (inject_Z m) = "大潮"%string) /\
  (In m [3; 4; 5; 17; 18; 19]%Z ->
   Lunar.get_tide_name (inject_Z m) = "中潮"%string) /\
  (In m [6; 7; 8; 9; 20; 21; 22; 23]%Z ->
   Lunar.get_tide_name (inject_Z m) = "小潮"%string) /\
  (In m [10; 11; 12; 24; 25; 26]%Z ->
   Lunar.get_tide_name (inject_Z m) = "長潮/若潮"%string) /\
  (In m [13; 27; 28; 31]%Z ->
   Lunar.get_tide_name (inject_Z m) = "中潮"%string) /\
  (~ In m ([0; 1; 2; 14; 15; 16; 29; 30]%Z ++ [3; 4; 5; 17; 18; 19]%Z
           ++ [6; 7; 8; 9; 20; 21; 22; 23]%Z ++ [10; 11; 12; 24; 25; 26]%Z) ->
   Lunar.get_tide_name (inject_Z m) = "中潮"%string) /\
  Lunar.get_tide_name (inject_Z 30%Z) = "大潮"%string.
Proof.
  unfold Lunar.get_tide_name. rewrite round_half_even_Z.
  repeat split; try (intro H; tide_cases H).
  intro N.
  rewrite !in_app_iff in N.
  rewrite !py_in_not_In; [reflexivity| | | |]; intro H; apply N; tauto.
Qed.

Lemma get_tide_name_buckets_witness :
  Lunar.get_tide_name (inject_Z 30%Z) = "大潮"%string /\
  Lunar.get_tide_name (inject_Z 13%Z) = "中潮"%string.
Proof.
  split.
  - apply (proj1 (get_tide_name_buckets 30%Z)). simpl. tauto.
  - apply (proj1 (proj2 (proj2 (proj2 (proj2 (get_tide_name_buckets 13%Z)))))).
    simpl. tauto.
Defined.


(* ------------------------------------------------------------------ *)
(** ** Classifiers *)

(** C7. The wave status of an absent average is "不明"; of a value of at
    least 2.5 it is "時化"; of a value of at least 1.5 and below 2.5 it
    is "注意"; of any lower value it is "凪".  Both thresholds belong to
    the upper band: 2.5 is "時化", 1.5 is "注意", 1.49 is "凪". *)
Theorem get_wave_status_text_bands :
  Wave.get_wave_status_text None = "不明"%string /\
  (forall h : Q, 2.5 <= h ->
     Wave.get_wave_status_text (Some h) = "時化"%string) /\
  (forall h : Q, 1.5 <= h -> h < 2.5 ->
     Wave.get_wave_status_text (Some h) = "注意"%string) /\
  (forall h : Q, h < 1.5 ->
     Wave.get_wave_status_text (Some h) = "凪"%string) /\
  Wave.get_wave_status_text (Some 2.5) = "時化"%string /\
  Wave.get_wave_status_text (Some 1.5) = "注意"%string /\
  Wave.get_wave_status_text (Some 1.49) = "凪"%string.
Proof.
  repeat split; try reflexivity; intros h; unfold Wave.get_wave_status_text.
  - intro H. apply geb_true in H. rewrite H. reflexivity.
  - intros H1 H2. apply geb_true in H1. apply geb_false in H2.
    rewrite H2, H1. reflexivity.
  - intro H.
    assert (H2 : h < 2.5) by (apply Qlt_trans with 1.5; [exact H|reflexivity]).
    apply geb_false in H. apply geb_false in H2.
    rewrite H2, H. reflexivity.
Qed.

Lemma get_wave_status_text_bands_witness :
  Wave.get_wave_status_text (Some 3) = "時化"%string /\
  Wave.get_wave_status_text (Some 2) = "注意"%string /\
  Wave.get_wave_status_text (Some 0.3) = "凪"%string.
Proof.
  destruct get_wave_status_text_bands as [_ [R [C [L _]]]].
  split; [|split].
  - apply (R 3). discriminate.
  - apply (C 2); [discriminate|reflexivity].
  - apply (L 0.3). reflexivity.
Defined.

(** C8. The wind classification used for the cell highlight and for the
    24 hour banner: a speed of at least 10 is the high band (red cell,
    error banner), a speed of at least 5 and below 10 the moderate band
    (yellow cell, warning banner), any lower speed the low band (no
    highlight, success banner).  10.0 is high, 9.99 moderate, 4.99 low. *)
Theorem wind_risk_bands :
  (forall v : Q, 10 <= v ->
     Wind.highlight_wind v = "background-color: #ffcccc"%string /\
     Wind.wind_banner (Some v)
     = Wind.st_error ("🔴 今後24時間: 最大" ++ PyNum.format_1f v
                      ++ "m/s の強風予報")) /\
  (forall v : Q, 5 <= v -> v < 10 ->
     Wind.highlight_wind v = "background-color: #ffffcc"%string /\
     Wind.wind_banner (Some v)
     = Wind.st_warning ("🟡 今後24時間: 最大" ++ PyNum.format_1f v
                        ++ "m/s の風あり")) /\
  (forall v : Q, v < 5 ->
     Wind.highlight_wind v = ""%string /\
     Wind.wind_banner (Some v) = Wind.st_success "🔵 今後24時間は穏やか") /\
  Wind.highlight_wind 10.0 = "background-color: #ffcccc"%string /\
  Wind.highlight_wind 9.99 = "background-color: #ffffcc"%string /\
  Wind.highlight_wind 4.99 = ""%string.
Proof.
  repeat split; try reflexivity;
    unfold Wind.highlight_wind, Wind.wind_banner.
  1,2: apply geb_true in H; rewrite H; reflexivity.
  1,2: apply geb_true in H; apply geb_false in H0; rewrite H0, H; reflexivity.
  1,2: assert (H2 : v < 10)
         by (apply Qlt_trans with 5; [exact H|reflexivity]);
       apply geb_false in H; apply geb_false in H2;
       rewrite H2, H; reflexivity.
Qed.

Lemma wind_risk_bands_witness :
  Wind.highlight_wind 12 = "background-color: #ffcccc"%string /\
  Wind.highlight_wind 7 = "background-color: #ffffcc"%string /\
  Wind.wind_banner (Some 3) = Wind.st_success "🔵 今後24時間は穏やか".
Proof.
  destruct wind_risk_bands as [Hi [Mo [Lo _]]].
  split; [|split].
  - apply (Hi 12). discriminate.
  - apply (Mo 7); [discriminate|reflexivity].
  - apply (Lo 3). reflexivity.
Defined.

(* ------------------------------------------------------------------ *)
(** ** Demand predictor *)

(** The search loop returns the position of the first entry for today,
    shifted by the start of the count. *)
Lemma find_today_first (today_str : string) (dates : list string) :
  forall (i : nat) (k : Z),
    nth_error dates i = Some today_str ->
    (forall j, (j < i)%nat -> nth_error dates j <> Some today_str) ->
    Demand.find_today today_str dates k = (k + Z.of_nat i)%Z.
Proof.
  induction dates as [|date_str rest IH]; intros i k Hi Hfirst.
  - destruct i; discriminate.
  - simpl. destruct i as [|i].
    + simpl in Hi. injection Hi as ->. rewrite String.eqb_refl. lia.
    + destruct (String.eqb date_str today_str) eqn:E.
      * apply String.eqb_eq in E. subst date_str.
        exfalso. apply (Hfirst 0%nat); [lia|reflexivity].
      * rewrite (IH i (k + 1)%Z); [lia|exact Hi|].
        intros j Hj. apply (Hfirst (S j)). lia.
Qed.

(** Without an entry for today the loop ends with the sentinel index. *)
Lemma find_today_absent (today_str : string) (dates : list string) :
  forall k : Z,
    ~ In today_str dates -> Demand.find_today today_str dates k = (-1)%Z.
Proof.
  induction dates as [|date_str rest IH]; intros k N; [reflexivity|].
  simpl. destruct (String.eqb date_str today_str) eqn:E.
  - apply String.eqb_eq in E. exfalso. apply N. left. exact E.
  - apply IH. intro H. apply N. right. exact H.
Qed.

Lemma getitem_nth {A : Type} (xs : list A) (i : nat) (x : A) :
  nth_error xs i = Some x -> Demand.getitem xs (Z.of_nat i) = Ok x.
Proof.
  intro H. unfold Demand.getitem. rewrite Nat2Z.id, H. reflexivity.
Qed.

(** C2, as the code has it.  A daily series without an entry for today
    makes the predictor return the nothing-notable text "特になし"; the
    no-data text "データなし" is what it returns for a payload that is
    absent, empty or without a daily series. *)
Theorem demand_without_today (today_str : string) (daily_data : Demand.Daily) :
  ~ In today_str (Demand.time daily_data) ->
  Demand.get_tokyo_demand_prediction today_str (Some (Some daily_data))
  = Ok "特になし"%string /\
  Demand.get_tokyo_demand_prediction today_str None
  = Ok "データなし"%string /\
  Demand.get_tokyo_demand_prediction today_str (Some None)
  = Ok "データなし"%string.
Proof.
  intro N. repeat split.
  unfold Demand.get_tokyo_demand_prediction.
  rewrite (find_today_absent _ _ 0%Z N). reflexivity.
Qed.

Lemma demand_without_today_witness :
  Demand.get_tokyo_demand_prediction "2026-11-03"
    (Some (Some Samples.daily_from_tomorrow))
  = Ok "特になし"%string.
Proof.
  apply (demand_without_today "2026-11-03" Samples.daily_from_tomorrow).
  simpl. intros [H|[H|H]]; [discriminate H|discriminate H|exact H].
Defined.

(** C2 as stated fails: this series has no entry for 2026-11-03, and the
    predictor answers "特になし", not "データなし". *)
Lemma demand_without_today_not_no_data :
  ~ (forall (today_str : string) (daily_data : Demand.Daily),
       ~ In today_str (Demand.time daily_data) ->
       Demand.get_tokyo_demand_prediction today_str (Some (Some daily_data))
       = Ok "データなし"%string).
Proof.
  intro C.
  specialize (C "2026-11-03"%string Samples.daily_from_tomorrow).
  assert (N : ~ In "2026-11-03"%string
                (Demand.time Samples.daily_from_tomorrow)).
  { simpl. intros [H|[H|H]]; [discriminate H|discriminate H|exact H]. }
  specialize (C N). vm_compute in C. discriminate C.
Qed.

(** C6. When the daily series has an entry for today (the first one
    counts), with max temperature [t] and max precipitation probability
    [p]: the reason "気温低下(鍋)" is present iff [t < 10], the reason
    "雨{p}%(客足)" iff [p >= 50]; the reasons are joined by " / " with the
    temperature reason first; with no reason the text is "特になし". *)
Theorem demand_reasons
    (today_str : string) (daily_data : Demand.Daily)
    (i : nat) (t : Q) (p : Z) :
  nth_error (Demand.time daily_data) i = Some today_str ->
  (forall j, (j < i)%nat ->
     nth_error (Demand.time daily_data) j <> Some today_str) ->
  nth_error (Demand.temperature_2m_max daily_data) i = Some (Some t) ->
  nth_error (Demand.precipitation_probability_max daily_data) i
  = Some (Some p) ->
  let cold := "気温低下(鍋)"%string in
  let rain := ("雨" ++ PyNum.str_int p ++ "%(客足)")%string in
  let advisory :=
    Demand.get_tokyo_demand_prediction today_str (Some (Some daily_data)) in
  (t < 10 -> (50 <= p)%Z -> advisory = Ok (cold ++ " / " ++ rain)%string) /\
  (t < 10 -> (p < 50)%Z -> advisory = Ok cold) /\
  (10 <= t -> (50 <= p)%Z -> advisory = Ok rain) /\
  (10 <= t -> (p < 50)%Z -> advisory = Ok "特になし"%string).
Proof.
  intros Hi Hfirst Ht Hp cold rain advisory. subst advisory.
  unfold Demand.get_tokyo_demand_prediction.
  rewrite (find_today_first _ _ i 0%Z Hi Hfirst). simpl (0 + Z.of_nat i)%Z.
  assert (S : (Z.of_nat i =? -1)%Z = false) by (apply Z.eqb_neq; lia).
  rewrite S. simpl negb. cbv iota.
  rewrite (getitem_nth _ _ _ Ht), (getitem_nth _ _ _ Hp).
  unfold bind, Demand.number.
  repeat split; intros Hq Hz;
    first [apply ltb_true in Hq | apply ltb_false in Hq];
    first [apply Z.leb_le in Hz | apply Z.leb_gt in Hz];
    rewrite Hq, Hz; reflexivity.
Qed.

Lemma demand_reasons_witness :
  Demand.get_tokyo_demand_prediction "2026-11-03"
    (Some (Some Samples.daily_cold_wet))
  = Ok "気温低下(鍋) / 雨60%(客足)"%string /\
  Demand.get_tokyo_demand_prediction "2026-11-03"
    (Some (Some Samples.daily_mild_dry))
  = Ok "特になし"%string.
Proof.
  split.
  - apply (demand_reasons "2026-11-03" Samples.daily_cold_wet 0 9 60%Z);
      [reflexivity|intros j Hj; lia|reflexivity|reflexivity
      |reflexivity|discriminate].
  - apply (demand_reasons "2026-11-03" Samples.daily_mild_dry 1 15 10%Z);
      [reflexivity| |reflexivity|reflexivity|discriminate|reflexivity].
    intros j Hj. destruct j; [discriminate|lia].
Defined.

(* ------------------------------------------------------------------ *)
(** ** Day-summary matrix *)

Section DaySamples.
Import Calendar.
Variable d : date.

Let on_day (tw : datetime * option Q) : bool := date_eqb (dt_date (fst tw)) d.

(** The index loop followed by the lookups collects exactly the present
    wave heights of the samples whose date matches. *)
Lemma daily_waves_indices (times : list datetime) :
  forall (ws pre : list (option Q)),
    (List.length times <= List.length ws)%nat ->
    Matrix.daily_waves (pre ++ ws)
      (Matrix.indices_from (List.length pre) times d)
    = Ok (Reading.present (map snd (filter on_day (combine times ws)))).
Proof.
  induction times as [|t rest IH]; intros ws pre L; [reflexivity|].
  destruct ws as [|w ws']; [simpl in L; lia|].
  simpl in L. apply le_S_n in L.
  assert (Step : Matrix.daily_waves (pre ++ w :: ws')
                   (Matrix.indices_from (S (List.length pre)) rest d)
                 = Ok (Reading.present
                         (map snd (filter on_day (combine rest ws'))))).
  { replace (pre ++ w :: ws') with ((pre ++ [w]) ++ ws')
      by (rewrite <- app_assoc; reflexivity).
    replace (S (List.length pre)) with (List.length (pre ++ [w]))
      by (rewrite length_app; simpl; lia).
    apply IH. exact L. }
  simpl. unfold on_day at 1. simpl fst.
  destruct (date_eqb (dt_date t) d); [|exact Step].
  simpl. rewrite Step.
  assert (G : Demand.getitem (pre ++ w :: ws') (Z.of_nat (List.length pre))
              = Ok w).
  { apply getitem_nth. rewrite nth_error_app2 by lia.
    rewrite Nat.sub_diag. reflexivity. }
  rewrite G. simpl. destruct w; reflexivity.
Qed.

Lemma indices_from_length (times : list datetime) :
  forall (ws : list (option Q)) (j0 : nat),
    (List.length times <= List.length ws)%nat ->
    List.length (Matrix.indices_from j0 times d)
    = List.length (filter on_day (combine times ws)).
Proof.
  induction times as [|t rest IH]; intros ws j0 L; [reflexivity|].
  destruct ws as [|w ws']; [simpl in L; lia|].
  simpl in L. apply le_S_n in L.
  simpl. unfold on_day at 1. simpl fst.
  destruct (date_eqb (dt_date t) d); simpl; rewrite (IH ws' (S j0) L);
    reflexivity.
Qed.

End DaySamples.

Lemma daily_waves_samples (h : Matrix.Hourly) (d : Calendar.date) :
  (List.length (Matrix.time h) <= List.length (Matrix.wave_height h))%nat ->
  Matrix.daily_waves (Matrix.wave_height h) (Matrix.current_day_indices h d)
  = Ok (Reading.present (Reading.samples_on h d)).
Proof.
  intro L. exact (daily_waves_indices d (Matrix.time h) _ [] L).
Qed.

Lemma current_day_indices_length (h : Matrix.Hourly) (d : Calendar.date) :
  (List.length (Matrix.time h) <= List.length (Matrix.wave_height h))%nat ->
  List.length (Matrix.current_day_indices h d)
  = List.length (Reading.samples_on h d).
Proof.
  intro L. unfold Reading.samples_on. rewrite length_map.
  exact (indices_from_length d (Matrix.time h) _ 0%nat L).
Qed.



Lemma present_all_null (xs : list (option Q)) :
  Forall (fun v => v = None) xs -> Reading.present xs = [].
Proof.
  induction 1 as [|v rest Hv _ IH]; [reflexivity|].
  subst v. exact IH.
Qed.

Lemma present_some (xs : list (option Q)) (x : Q) :
  In (Some x) xs -> Reading.present xs <> [].
Proof.
  induction xs as [|[y|] rest IH]; simpl; intros H.
  - contradiction.
  - discriminate.
  - destruct H as [H|H]; [discriminate|]. apply IH. exact H.
Qed.

(** What [day_cell] returns, by the samples of the date. *)
Lemma day_cell_by_samples (h : Matrix.Hourly) (d : Calendar.date) :
  (List.length (Matrix.time h) <= List.length (Matrix.wave_height h))%nat ->
  Matrix.day_cell h d
  = Ok (match Reading.samples_on h d with
        | [] => Matrix.NoCoverage
        | _ :: _ =>
            match Reading.present (Reading.samples_on h d) with
            | [] => Matrix.NoData
            | _ :: _ =>
                Matrix.Summary
                  (Matrix.np_mean (Reading.present (Reading.samples_on h d)))
                  (Lunar.calculate_moon_age d)
            end
        end).
Proof.
  intro L. unfold Matrix.day_cell.
  pose proof (current_day_indices_length h d L) as E.
  pose proof (daily_waves_samples h d L) as W.
  destruct (Matrix.current_day_indices h d) as [|j idx];
    destruct (Reading.samples_on h d) as [|s smp]; try discriminate E.
  - reflexivity.
  - cbv beta iota zeta. rewrite W. unfold bind.
    destruct (Reading.present (s :: smp)); reflexivity.
Qed.

(** A summary text starts with one of the three sea-state labels. *)
Lemma summary_text_head (avg_wave moon_age_val : Q) :
  exists tl : string,
    Matrix.cell_text (Matrix.Summary avg_wave moon_age_val)
    = ("時化 " ++ tl)%string \/
    Matrix.cell_text (Matrix.Summary avg_wave moon_age_val)
    = ("注意 " ++ tl)%string \/
    Matrix.cell_text (Matrix.Summary avg_wave moon_age_val)
    = ("凪 " ++ tl)%string.
Proof.
  exists (PyNum.format_1f avg_wave ++ "m ("
          ++ Lunar.get_tide_name moon_age_val ++ ", 月齢"
          ++ PyNum.format_1f moon_age_val ++ ")")%string.
  unfold Matrix.cell_text, Wave.get_wave_status_text.
  destruct (PyNum.geb avg_wave 2.5); [left; reflexivity|].
  destruct (PyNum.geb avg_wave 1.5); [right; left|right; right]; reflexivity.
Qed.

Lemma summary_text_not_degraded (avg_wave moon_age_val : Q) (c : Matrix.cell) :
  Matrix.cell_text (Matrix.Summary avg_wave moon_age_val) = Matrix.cell_text c ->
  exists a m, c = Matrix.Summary a m.
Proof.
  intro E. destruct c as [a m| | |]; [exists a, m; reflexivity| | |];
    exfalso; destruct (summary_text_head avg_wave moon_age_val) as [tl H];
    rewrite E in H; simpl in H;
    destruct H as [H|[H|H]]; discriminate H.
Qed.

(** With data for the location, the row lists the cell of every date. *)
Lemma row_data_cells (h : Matrix.Hourly) (dates : list Calendar.date) :
  (List.length (Matrix.time h) <= List.length (Matrix.wave_height h))%nat ->
  exists cells : list Matrix.cell,
    Forall2 (fun d c => Matrix.day_cell h d = Ok c) dates cells /\
    Matrix.row_data (Some (Some h)) dates
    = Ok (combine dates (map Matrix.cell_text cells)).
Proof.
  intro L. unfold Matrix.row_data.
  induction dates as [|d rest [cells [F E]]].
  - exists []. split; [constructor|reflexivity].
  - pose proof (day_cell_by_samples h d L) as D.
    remember (match Reading.samples_on h d with
              | [] => Matrix.NoCoverage
              | _ :: _ => _
              end) as c eqn:Hc. clear Hc.
    exists (c :: cells). split; [constructor; assumption|].
    simpl. rewrite D. simpl. rewrite E. reflexivity.
Qed.

(** C4. The three degraded cells of a row are different, and each has
    its own cause.  An absent raw series (failed fetch, or a payload
    without the hourly part) gives "取得失敗" in every date of the row.
    With a series: a date without any matching sample gives "-"; a date
    whose matching samples are all null gives "データなし"; a date with a
    present sample gives a summary.  No two of these texts coincide, and
    none coincides with the text of a summary. *)
Theorem degraded_cells_distinct :
  (forall dates : list Calendar.date,
     Matrix.row_data None dates
     = Ok (map (fun d => (d, "取得失敗"%string)) dates) /\
     Matrix.row_data (Some None) dates
     = Ok (map (fun d => (d, "取得失敗"%string)) dates)) /\
  (forall (h : Matrix.Hourly) (d : Calendar.date),
     (List.length (Matrix.time h) <= List.length (Matrix.wave_height h))%nat ->
     let samples := Reading.samples_on h d in
     (samples = [] -> Matrix.day_cell h d = Ok Matrix.NoCoverage) /\
     (samples <> [] -> Forall (fun v => v = None) samples ->
      Matrix.day_cell h d = Ok Matrix.NoData) /\
     (forall x, In (Some x) samples ->
      exists avg_wave,
        Matrix.day_cell h d
        = Ok (Matrix.Summary avg_wave (Lunar.calculate_moon_age d)))) /\
  (forall (h : Matrix.Hourly) (dates : list Calendar.date),
     (List.length (Matrix.time h) <= List.length (Matrix.wave_height h))%nat ->
     exists cells : list Matrix.cell,
       Forall2 (fun d c => Matrix.day_cell h d = Ok c) dates cells /\
       Matrix.row_data (Some (Some h)) dates
       = Ok (combine dates (map Matrix.cell_text cells))) /\
  (Matrix.cell_text Matrix.NoData = "データなし"%string /\
   Matrix.cell_text Matrix.NoCoverage = "-"%string /\
   Matrix.cell_text Matrix.FetchFailed = "取得失敗"%string) /\
  (forall c c' : Matrix.cell,
     Matrix.cell_text c = Matrix.cell_text c' ->
     match c, c' with
     | Matrix.Summary _ _, Matrix.Summary _ _ => True
     | _, _ => c = c'
     end).
Proof.
  split; [|split; [|split; [|split]]].
  - intro dates. split; reflexivity.
  - intros h d L samples. subst samples.
    rewrite (day_cell_by_samples h d L).
    split; [|split].
    + intro E. rewrite E. reflexivity.
    + intros N A. rewrite (present_all_null _ A).
      destruct (Reading.samples_on h d); [contradiction|reflexivity].
    + intros x Hx. pose proof (present_some _ _ Hx) as P.
      destruct (Reading.samples_on h d) as [|s smp]; [contradiction|].
      destruct (Reading.present (s :: smp)) as [|w ws]; [contradiction|].
      eexists. reflexivity.
  - exact row_data_cells.
  - repeat split.
  - intros c c' E.
    destruct c as [a m| | |].
    + destruct (summary_text_not_degraded a m c' E) as [a' [m' ->]]. exact I.
    + destruct c' as [a' m'| | |]; try reflexivity; try discriminate E.
      symmetry in E.
      destruct (summary_text_not_degraded a' m' _ E) as [? [? C]].
      discriminate C.
    + destruct c' as [a' m'| | |]; try reflexivity; try discriminate E.
      symmetry in E.
      destruct (summary_text_not_degraded a' m' _ E) as [? [? C]].
      discriminate C.
    + destruct c' as [a' m'| | |]; try reflexivity; try discriminate E.
      symmetry in E.
      destruct (summary_text_not_degraded a' m' _ E) as [? [? C]].
      discriminate C.
Qed.

Lemma degraded_cells_distinct_witness :
  Matrix.day_cell Samples.marine_hourly (Calendar.mkdate 2026 11 5)
  = Ok Matrix.NoCoverage /\
  Matrix.day_cell Samples.marine_hourly Samples.nov4 = Ok Matrix.NoData /\
  Matrix.row_data None [Samples.nov3; Samples.nov4]
  = Ok [(Samples.nov3, "取得失敗"%string); (Samples.nov4, "取得失敗"%string)].
Proof.
  destruct degraded_cells_distinct as [F [D _]].
  assert (L : (List.length (Matrix.time Samples.marine_hourly)
               <= List.length (Matrix.wave_height Samples.marine_hourly))%nat)
    by (simpl; lia).
  split; [|split].
  - apply (D Samples.marine_hourly (Calendar.mkdate 2026 11 5) L).
    reflexivity.
  - apply (D Samples.marine_hourly Samples.nov4 L).
    + discriminate.
    + repeat constructor.
  - apply (F [Samples.nov3; Samples.nov4]).
Defined.



Example marine_row_sample :
  Matrix.row_data (Some (Some Samples.marine_hourly))
    [Samples.nov3; Samples.nov4; Calendar.mkdate 2026 11 5]
  = Ok [(Samples.nov3, "注意 2.0m (小潮, 月齢23.4)"%string);
        (Samples.nov4, "データなし"%string);
        (Calendar.mkdate 2026 11 5, "-"%string)].
Proof. vm_compute. reflexivity. Qed.

(* ------------------------------------------------------------------ *)
(** ** Wind table *)

Section Sublists.
Context {A : Type} (R : A -> A -> Prop).






End Sublists.










(** The table built from the payload has its two arrays as columns. *)
Lemma DataFrame_columns (h : Wind.Hourly) (rows : list Wind.row) :
  Wind.DataFrame h = Ok rows ->
  map Wind.r_time rows = Wind.time h /\
  map Wind.r_wind rows = Wind.wind_speed_10m h.
Proof.
  unfold Wind.DataFrame.
  destruct (List.length (Wind.time h)
            =? List.length (Wind.wind_speed_10m h))%nat eqn:E;
    [|discriminate].
  apply Nat.eqb_eq in E. intro H. injection H as <-.
  rewrite !map_map. simpl.
  change (fun x : Calendar.datetime * option Q => fst x)
    with (@fst Calendar.datetime (option Q)).
  change (fun x : Calendar.datetime * option Q => snd x)
    with (@snd Calendar.datetime (option Q)).
  split.
  - clear -E. revert E. generalize (Wind.wind_speed_10m h).
    induction (Wind.time h) as [|t ts IH]; intros [|w ws] E;
      try discriminate E; [reflexivity|].
    simpl. f_equal. apply IH. simpl in E. lia.
  - clear -E. revert E. generalize (Wind.wind_speed_10m h).
    induction (Wind.time h) as [|t ts IH]; intros [|w ws] E;
      try discriminate E; [reflexivity|].
    simpl. f_equal. apply IH. simpl in E. lia.
Qed.





Example thirty_hours_maximum :
  List.length Samples.thirty_hours = 30%nat /\
  Wind.max_wind_24h Samples.thirty_hours Samples.midnight = Some 10.
Proof. split; vm_compute; reflexivity. Qed.


Example page_samples :
  Page.highlight_status "時化 2.6m (大潮, 月齢1.0)"
  = "color: red; font-weight: bold"%string /\
  Page.highlight_status "-" = "color: black; font-weight: normal"%string /\
  Page.get_proxy_url "https://www.data.jma.go.jp/gmd/waveinf/tile/jp/png/p_now.png"
  = "https://wsrv.nl/?url=www.data.jma.go.jp/gmd/waveinf/tile/jp/png/p_now.png&output=webp"%string /\
  Page.replace "https://" "" "hthttps://tps://x" = "https://x"%string /\
  Page.default_index Matrix.marine_keys = Ok 7%nat.
Proof. repeat split; vm_compute; reflexivity. Qed.

(* ------------------------------------------------------------------ *)
(** ** More on rounding *)

Section Nearest.
Import PyNum.

(** The rounded value is within one half of the argument. *)
Lemma round_half_even_near (x : Q) :
  x - (1 # 2) <= inject_Z (round_half_even x) <= x + (1 # 2).
Proof.
  pose proof (Qfloor_le x) as Lo.
  pose proof (Qlt_floor x) as Hi.
  rewrite inject_Z_plus in Hi. change (inject_Z 1) with 1 in Hi.
  unfold round_half_even.
  destruct (x - inject_Z (Qfloor x) ?= 1 # 2) eqn:C.
  - apply Qeq_alt in C.
    destruct (Z.even (Qfloor x));
      [|rewrite inject_Z_plus; change (inject_Z 1) with 1]; lra.
  - rewrite <- Qlt_alt in C. lra.
  - rewrite <- Qgt_alt in C. rewrite inject_Z_plus.
    change (inject_Z 1) with 1. lra.
Qed.

(** A value strictly between two half-integers rounds to the integer
    between them. *)
Lemma round_half_even_open (x : Q) (m : Z) :
  inject_Z m - (1 # 2) < x -> x < inject_Z m + (1 # 2) ->
  round_half_even x = m.
Proof.
  intros Lo Hi.
  destruct (round_half_even_near x) as [A B].
  assert (L : inject_Z m < inject_Z (round_half_even x + 1)).
  { rewrite inject_Z_plus. change (inject_Z 1) with 1. lra. }
  assert (U : inject_Z (round_half_even x) < inject_Z (m + 1)).
  { rewrite inject_Z_plus. change (inject_Z 1) with 1. lra. }
  rewrite <- Zlt_Qlt in L, U. lia.
Qed.

(** A half-integer rounds to its even neighbour. *)
Lemma round_half_even_tie (x : Q) (m : Z) :
  x == inject_Z m + (1 # 2) ->
  round_half_even x = if Z.even m then m else (m + 1)%Z.
Proof.
  intro E.
  assert (F : Qfloor x = m).
  { pose proof (Qfloor_le x) as Lo. pose proof (Qlt_floor x) as Hi.
    rewrite inject_Z_plus in Hi. change (inject_Z 1) with 1 in Hi.
    assert (L : inject_Z m < inject_Z (Qfloor x + 1)).
    { rewrite inject_Z_plus. change (inject_Z 1) with 1. lra. }
    assert (U : inject_Z (Qfloor x) < inject_Z (m + 1)).
    { rewrite inject_Z_plus. change (inject_Z 1) with 1. lra. }
    rewrite <- Zlt_Qlt in L, U. lia. }
  unfold round_half_even. rewrite F.
  assert (C : (x - inject_Z m ?= 1 # 2) = Eq).
  { apply Qeq_alt. lra. }
  rewrite C. reflexivity.
Qed.




End Nearest.

(* ------------------------------------------------------------------ *)
(** ** Lunar tide calculator, beyond single integers *)




(** X2. [get_tide_name] depends on the moon age only through its nearest
    integer: an age strictly within one half of [m] gets the tide name
    of [m], and an age exactly half way between two integers gets the
    name of the even one. *)
Theorem tide_name_nearest_integer (x : Q) (m : Z) :
  (inject_Z m - (1 # 2) < x -> x < inject_Z m + (1 # 2) ->
   Lunar.get_tide_name x = Lunar.get_tide_name (inject_Z m)) /\
  (x == inject_Z m + (1 # 2) ->
   Lunar.get_tide_name x
   = Lunar.get_tide_name (inject_Z (if Z.even m then m else m + 1))).
Proof.
  unfold Lunar.get_tide_name. split.
  - intros Lo Hi.
    rewrite (round_half_even_open x m Lo Hi), round_half_even_Z. reflexivity.
  - intro E.
    rewrite (round_half_even_tie x m E), round_half_even_Z. reflexivity.
Qed.

Lemma tide_name_nearest_integer_witness :
  Lunar.get_tide_name 13.6 = Lunar.get_tide_name (inject_Z 14) /\
  Lunar.get_tide_name 2.5 = Lunar.get_tide_name (inject_Z 2) /\
  Lunar.get_tide_name 5.5 = Lunar.get_tide_name (inject_Z 6).
Proof.
  split; [|split].
  - apply (proj1 (tide_name_nearest_integer 13.6 14%Z)); reflexivity.
  - apply (proj2 (tide_name_nearest_integer 2.5 2%Z)). reflexivity.
  - apply (proj2 (tide_name_nearest_integer 5.5 5%Z)). reflexivity.
Defined.



(* ------------------------------------------------------------------ *)
(** ** Demand predictor: search, errors and shape of the text *)

Lemma first_occurrence (today_str : string) (dates : list string) :
  In today_str dates ->
  exists i : nat,
    nth_error dates i = Some today_str /\
    (forall j, (j < i)%nat -> nth_error dates j <> Some today_str).
Proof.
  induction dates as [|date_str rest IH]; intro H; [contradiction|].
  destruct (string_dec date_str today_str) as [E|N].
  - exists 0%nat. subst. split; [reflexivity|]. intros j Hj. lia.
  - destruct H as [H|H]; [contradiction|].
    destruct (IH H) as [i [Hi Hfirst]].
    exists (S i). split; [exact Hi|].
    intros [|j] Hj; simpl.
    + intro C. injection C as C. contradiction.
    + apply Hfirst. lia.
Qed.

Lemma getitem_missing {A : Type} (xs : list A) (i : nat) :
  nth_error xs i = None -> Demand.getitem xs (Z.of_nat i) = Raise IndexError.
Proof.
  intro H. unfold Demand.getitem. rewrite Nat2Z.id, H. reflexivity.
Qed.

(** X4. The search loop of the predictor ends either with -1, exactly
    when no entry equals today, or with the position of the first entry
    that equals today, which is a valid index of the array. *)
Theorem find_today_result (today_str : string) (dates : list string) :
  let today_index := Demand.find_today today_str dates 0 in
  (today_index = (-1)%Z /\ ~ In today_str dates) \/
  (exists i : nat,
     today_index = Z.of_nat i /\ (i < List.length dates)%nat /\
     nth_error dates i = Some today_str /\
     (forall j, (j < i)%nat -> nth_error dates j <> Some today_str)).
Proof.
  intro today_index. subst today_index.
  destruct (in_dec string_dec today_str dates) as [H|N].
  - right. destruct (first_occurrence _ _ H) as [i [Hi Hfirst]].
    exists i. rewrite (find_today_first _ _ i 0%Z Hi Hfirst).
    repeat split; [|exact Hi|exact Hfirst].
    apply nth_error_Some. congruence.
  - left. split; [apply find_today_absent|]; exact N.
Qed.

(** X5. With an entry for today the predictor reads both arrays at
    today's position and raises instead of answering when a slot is
    missing ([IndexError]) or null ([TypeError]); the temperature is
    read first, and a failing precipitation slot raises even when the
    temperature has already given a reason. *)
Theorem demand_raises
    (today_str : string) (daily_data : Demand.Daily) (i : nat) :
  nth_error (Demand.time daily_data) i = Some today_str ->
  (forall j, (j < i)%nat ->
     nth_error (Demand.time daily_data) j <> Some today_str) ->
  let advisory :=
    Demand.get_tokyo_demand_prediction today_str (Some (Some daily_data)) in
  (nth_error (Demand.temperature_2m_max daily_data) i = None ->
   advisory = Raise IndexError) /\
  (nth_error (Demand.temperature_2m_max daily_data) i = Some None ->
   advisory = Raise TypeError) /\
  (forall t : Q,
     nth_error (Demand.temperature_2m_max daily_data) i = Some (Some t) ->
     (nth_error (Demand.precipitation_probability_max daily_data) i = None ->
      advisory = Raise IndexError) /\
     (nth_error (Demand.precipitation_probability_max daily_data) i
      = Some None ->
      advisory = Raise TypeError)).
Proof.
  intros Hi Hfirst advisory. subst advisory.
  unfold Demand.get_tokyo_demand_prediction.
  rewrite (find_today_first _ _ i 0%Z Hi Hfirst). simpl (0 + Z.of_nat i)%Z.
  assert (S : (Z.of_nat i =? -1)%Z = false) by (apply Z.eqb_neq; lia).
  rewrite S. simpl negb. cbv iota.
  split; [|split].
  - intro H. rewrite (getitem_missing _ _ H). reflexivity.
  - intro H. rewrite (getitem_nth _ _ _ H). reflexivity.
  - intros t Ht. rewrite (getitem_nth _ _ _ Ht). split; intro H.
    + rewrite (getitem_missing _ _ H). reflexivity.
    + rewrite (getitem_nth _ _ _ H). reflexivity.
Qed.

Lemma demand_raises_witness :
  Demand.get_tokyo_demand_prediction "2026-11-03"
    (Some (Some (Demand.mkDaily ["2026-11-03"%string] [None] [Some 80%Z])))
  = Raise TypeError /\
  Demand.get_tokyo_demand_prediction "2026-11-03"
    (Some (Some (Demand.mkDaily ["2026-11-03"%string] [Some 4] [])))
  = Raise IndexError.
Proof.
  split.
  - apply (demand_raises "2026-11-03"
             (Demand.mkDaily ["2026-11-03"%string] [None] [Some 80%Z]) 0);
      [reflexivity|intros j Hj; lia|reflexivity].
  - assert (F : forall j, (j < 0)%nat ->
                nth_error ["2026-11-03"%string] j <> Some "2026-11-03"%string)
      by (intros j Hj; lia).
    destruct (demand_raises "2026-11-03"
                (Demand.mkDaily ["2026-11-03"%string] [Some 4] []) 0
                eq_refl F) as [_ [_ W]].
    destruct (W 4 eq_refl) as [W1 _]. apply W1. reflexivity.
Defined.

(** X6. Whatever the payload, an answer of the predictor is never the
    empty text, and it is "データなし" exactly when the payload is absent,
    empty or without a daily part: a daily part never gives that text. *)
Theorem demand_text_shape
    (today_str : string) (tokyo_weather_data : option (option Demand.Daily))
    (s : string) :
  Demand.get_tokyo_demand_prediction today_str tokyo_weather_data = Ok s ->
  s <> ""%string /\
  (s = "データなし"%string <->
   tokyo_weather_data = None \/ tokyo_weather_data = Some None).
Proof.
  unfold Demand.get_tokyo_demand_prediction.
  destruct tokyo_weather_data as [[daily_data|]|].
  - destruct (negb (Demand.find_today today_str (Demand.time daily_data) 0
                    =? -1)%Z).
    + destruct (Demand.getitem (Demand.temperature_2m_max daily_data) _)
        as [[t|]|]; simpl; try discriminate.
      destruct (Demand.getitem
                  (Demand.precipitation_probability_max daily_data) _)
        as [[p|]|]; simpl; try discriminate.
      destruct (PyNum.ltb t 10); destruct (50 <=? p)%Z; simpl;
        intro E; injection E as <-;
        (split; [discriminate|]);
        (split; [discriminate|intros [C|C]; discriminate C]).
    + simpl. intro E. injection E as <-.
      split; [discriminate|].
      split; [discriminate|intros [C|C]; discriminate C].
  - intro E. injection E as <-. split; [discriminate|].
    split; [right; reflexivity|reflexivity].
  - intro E. injection E as <-. split; [discriminate|].
    split; [left; reflexivity|reflexivity].
Qed.

Lemma demand_text_shape_witness :
  "気温低下(鍋) / 雨60%(客足)"%string <> ""%string /\
  ("気温低下(鍋) / 雨60%(客足)"%string = "データなし"%string <->
   Some (Some Samples.daily_cold_wet) = None \/
   Some (Some Samples.daily_cold_wet) = Some None).
Proof.
  apply (demand_text_shape "2026-11-03" (Some (Some Samples.daily_cold_wet))).
  reflexivity.
Defined.

(* ------------------------------------------------------------------ *)
(** ** Day-summary matrix: errors, shape of the rows, bounds *)

Lemma mapM_Forall2 {A B : Type} (f : A -> result B) (xs : list A) :
  forall ys : list B,
    Matrix.mapM f xs = Ok ys -> Forall2 (fun x y => f x = Ok y) xs ys.
Proof.
  induction xs as [|x rest IH]; simpl; intros ys E.
  - injection E as <-. constructor.
  - destruct (f x) as [y|e] eqn:Fx; simpl in E; [|discriminate E].
    destruct (Matrix.mapM f rest) as [ys'|e]; simpl in E; [|discriminate E].
    injection E as <-. constructor; [exact Fx|apply IH; reflexivity].
Qed.

Lemma mapM_raise {A B : Type} (f : A -> result B) (e : exn) (xs : list A) :
  (forall x e', f x = Raise e' -> e' = e) ->
  forall x, In x xs -> f x = Raise e -> Matrix.mapM f xs = Raise e.
Proof.
  intros One x. induction xs as [|x0 rest IH]; intros Hin Fx; [contradiction|].
  simpl. destruct (f x0) as [y|e0] eqn:F0; simpl.
  - destruct Hin as [->|Hin]; [congruence|].
    rewrite (IH Hin Fx). reflexivity.
  - rewrite (One x0 e0 F0). reflexivity.
Qed.

Lemma mapM_total {A B : Type} (f : A -> result B) (xs : list A) :
  (forall x, In x xs -> exists y, f x = Ok y) ->
  exists ys, Matrix.mapM f xs = Ok ys.
Proof.
  induction xs as [|x rest IH]; intro All; [exists []; reflexivity|].
  destruct (All x (or_introl eq_refl)) as [y Fx].
  destruct IH as [ys E]; [intros x' H; apply All; right; exact H|].
  exists (y :: ys). simpl. rewrite Fx. simpl. rewrite E. reflexivity.
Qed.

(** The lookups of the comprehension fail only with [IndexError]. *)
Lemma daily_waves_raise (w : list (option Q)) (indices : list nat) (e : exn) :
  Matrix.daily_waves w indices = Raise e -> e = IndexError.
Proof.
  induction indices as [|j rest IH]; simpl; [discriminate|].
  unfold Demand.getitem.
  destruct (nth_error w (Z.to_nat (Z.of_nat j))) as [v|]; simpl.
  - destruct (Matrix.daily_waves w rest) as [tl|e0]; simpl.
    + destruct v; discriminate.
    + intro E. injection E as <-. apply IH. reflexivity.
  - intro E. injection E as <-. reflexivity.
Qed.

Lemma daily_waves_out_of_range (w : list (option Q)) (indices : list nat)
    (j : nat) :
  In j indices -> (List.length w <= j)%nat ->
  Matrix.daily_waves w indices = Raise IndexError.
Proof.
  induction indices as [|j0 rest IH]; intros Hin L; [contradiction|].
  simpl. destruct (Demand.getitem w (Z.of_nat j0)) as [v|e] eqn:G; simpl.
  - destruct Hin as [->|Hin].
    + unfold Demand.getitem in G. rewrite Nat2Z.id in G.
      apply nth_error_None in L. rewrite L in G. discriminate G.
    + rewrite (IH Hin L). reflexivity.
  - unfold Demand.getitem in G.
    destruct (nth_error w (Z.to_nat (Z.of_nat j0))); [discriminate G|].
    injection G as <-. reflexivity.
Qed.

Lemma indices_from_In (d : Calendar.date) (times : list Calendar.datetime) :
  forall (j0 j : nat) (t : Calendar.datetime),
    nth_error times j = Some t ->
    Calendar.date_eqb (Calendar.dt_date t) d = true ->
    In (j0 + j)%nat (Matrix.indices_from j0 times d).
Proof.
  induction times as [|t0 rest IH]; intros j0 j t Hj Hd.
  - destruct j; discriminate Hj.
  - simpl. destruct j as [|j].
    + simpl in Hj. injection Hj as ->. rewrite Hd. left. lia.
    + simpl in Hj. specialize (IH (S j0) j t Hj Hd).
      replace (j0 + S j)%nat with (S j0 + j)%nat by lia.
      destruct (Calendar.date_eqb (Calendar.dt_date t0) d);
        [right|]; exact IH.
Qed.

Lemma day_cell_raise (h : Matrix.Hourly) (d : Calendar.date) (e : exn) :
  Matrix.day_cell h d = Raise e -> e = IndexError.
Proof.
  unfold Matrix.day_cell.
  destruct (Matrix.current_day_indices h d) as [|j idx]; [discriminate|].
  destruct (Matrix.daily_waves (Matrix.wave_height h) (j :: idx))
    as [ws|e0] eqn:W; simpl.
  - destruct ws; discriminate.
  - intro E. injection E as <-. exact (daily_waves_raise _ _ _ W).
Qed.

Lemma row_data_raise (marine_data : option (option Matrix.Hourly))
    (dates : list Calendar.date) (e : exn) :
  Matrix.row_data marine_data dates = Raise e -> e = IndexError.
Proof.
  destruct marine_data as [[h|]|]; simpl; try discriminate.
  induction dates as [|d rest IH]; simpl; [discriminate|].
  destruct (Matrix.day_cell h d) as [c|e0] eqn:D; simpl.
  - destruct (Matrix.mapM _ rest) as [ys|e1]; simpl; [discriminate|].
    intro E. injection E as <-. apply IH. reflexivity.
  - intro E. injection E as <-. exact (day_cell_raise _ _ _ D).
Qed.

(** X7. A payload whose wave-height array is too short for a sample of a
    requested date is not degraded to a text: the lookup raises
    [IndexError], the row of that location raises, and with it the whole
    matrix, whatever the other locations returned. *)
Theorem short_wave_array_raises
    (h : Matrix.Hourly) (d : Calendar.date) (j : nat) (t : Calendar.datetime) :
  nth_error (Matrix.time h) j = Some t ->
  Calendar.date_eqb (Calendar.dt_date t) d = true ->
  (List.length (Matrix.wave_height h) <= j)%nat ->
  Matrix.day_cell h d = Raise IndexError /\
  (forall dates, In d dates ->
     Matrix.row_data (Some (Some h)) dates = Raise IndexError) /\
  (forall get_marine_data dates loc_name,
     In d dates -> In loc_name Matrix.marine_keys ->
     get_marine_data loc_name = Some (Some h) ->
     Matrix.marine_matrix_data get_marine_data dates = Raise IndexError).
Proof.
  intros Hj Hd L.
  assert (D : Matrix.day_cell h d = Raise IndexError).
  { unfold Matrix.day_cell.
    pose proof (indices_from_In d (Matrix.time h) 0 j t Hj Hd) as Hin.
    simpl in Hin. fold (Matrix.current_day_indices h d) in Hin.
    destruct (Matrix.current_day_indices h d) as [|j0 idx] eqn:I;
      [contradiction|].
    rewrite (daily_waves_out_of_range _ _ j Hin L). reflexivity. }
  assert (R : forall dates, In d dates ->
                Matrix.row_data (Some (Some h)) dates = Raise IndexError).
  { intros dates Hin. unfold Matrix.row_data.
    apply (mapM_raise _ IndexError dates) with (x := d); [|exact Hin|].
    - intros x e' E.
      destruct (Matrix.day_cell h x) as [c|e0] eqn:Dx; simpl in E;
        [discriminate E|].
      injection E as <-. exact (day_cell_raise _ _ _ Dx).
    - rewrite D. reflexivity. }
  split; [exact D|]. split; [exact R|].
  intros get_marine_data dates loc_name Hd' Hloc G.
  unfold Matrix.marine_matrix_data.
  apply (mapM_raise _ IndexError Matrix.marine_keys) with (x := loc_name);
    [|exact Hloc|].
  - intros x e' E.
    destruct (Matrix.row_data (get_marine_data x) dates) as [r|e0] eqn:Rx;
      simpl in E; [discriminate E|].
    injection E as <-. exact (row_data_raise _ _ _ Rx).
  - rewrite G, (R dates Hd'). reflexivity.
Qed.

Lemma short_wave_array_raises_witness :
  Matrix.day_cell
    (Matrix.mkHourly [Calendar.mkdatetime Samples.nov3 0] []) Samples.nov3
  = Raise IndexError.
Proof.
  apply (short_wave_array_raises
           (Matrix.mkHourly [Calendar.mkdatetime Samples.nov3 0] [])
           Samples.nov3 0 (Calendar.mkdatetime Samples.nov3 0)).
  - reflexivity.
  - reflexivity.
  - simpl. lia.
Defined.

Lemma row_data_dates (marine_data : option (option Matrix.Hourly))
    (dates : list Calendar.date) (row : list (Calendar.date * string)) :
  Matrix.row_data marine_data dates = Ok row -> map fst row = dates.
Proof.
  assert (Failed : Ok (map (fun d => (d, Matrix.cell_text Matrix.FetchFailed))
                         dates) = Ok row -> map fst row = dates).
  { intro E. injection E as <-. rewrite map_map. simpl. apply map_id. }
  destruct marine_data as [[h|]|]; simpl; [|exact Failed|exact Failed].
  clear Failed. revert row.
  induction dates as [|d rest IH]; simpl; intros row E.
  - injection E as <-. reflexivity.
  - destruct (Matrix.day_cell h d) as [c|e]; simpl in E; [|discriminate E].
    destruct (Matrix.mapM _ rest) as [ys|e]; simpl in E; [|discriminate E].
    injection E as <-. simpl. f_equal. apply IH. reflexivity.
Qed.

(** X8. When the matrix is built, it has one row per marine location, in
    the order of [marine_keys]; the row of a location is the row computed
    from that location's own payload alone, and it has one cell per
    requested date, in order.  When every payload that arrived has a
    wave-height array at least as long as its time array, the matrix is
    built. *)
Theorem marine_matrix_rows
    (get_marine_data : string -> option (option Matrix.Hourly))
    (dates : list Calendar.date) :
  (forall rows,
     Matrix.marine_matrix_data get_marine_data dates = Ok rows ->
     Forall2 (fun loc_name row =>
                fst row = loc_name /\
                Matrix.row_data (get_marine_data loc_name) dates
                = Ok (snd row) /\
                map fst (snd row) = dates)
             Matrix.marine_keys rows) /\
  ((forall loc_name h,
      get_marine_data loc_name = Some (Some h) ->
      (List.length (Matrix.time h)
       <= List.length (Matrix.wave_height h))%nat) ->
   exists rows, Matrix.marine_matrix_data get_marine_data dates = Ok rows).
Proof.
  unfold Matrix.marine_matrix_data. split.
  - intros rows E. apply mapM_Forall2 in E.
    induction E as [|loc_name row keys rows' Hrow _ IH]; constructor;
      [|exact IH].
    destruct (Matrix.row_data (get_marine_data loc_name) dates)
      as [r|e] eqn:R; simpl in Hrow; [|discriminate Hrow].
    injection Hrow as <-. simpl.
    repeat split. exact (row_data_dates _ _ _ R).
  - intro WF. apply mapM_total. intros loc_name _.
    destruct (get_marine_data loc_name) as [[h|]|] eqn:G.
    + destruct (row_data_cells h dates (WF loc_name h G)) as [cells [_ E]].
      rewrite E. eexists. reflexivity.
    + eexists. reflexivity.
    + eexists. reflexivity.
Qed.

Lemma marine_matrix_rows_witness :
  exists rows,
    Matrix.marine_matrix_data
      (fun loc_name =>
         if String.eqb loc_name "徳島" then None
         else Some (Some Samples.marine_hourly))
      [Samples.nov3; Samples.nov4]
    = Ok rows.
Proof.
  apply (marine_matrix_rows
           (fun loc_name =>
              if String.eqb loc_name "徳島" then None
              else Some (Some Samples.marine_hourly))
           [Samples.nov3; Samples.nov4]).
  intros loc_name h.
  destruct (String.eqb loc_name "徳島"); [discriminate|].
  intro E. injection E as <-. simpl. lia.
Defined.






(** X10. The cell of a date depends only on the wave-height slots of
    the samples of that date, in their order: two payloads with the same
    samples on [d] give the same cell, whatever they hold for other
    dates and whatever the times of day are. *)
Theorem day_cell_local (h h' : Matrix.Hourly) (d : Calendar.date) :
  (List.length (Matrix.time h) <= List.length (Matrix.wave_height h))%nat ->
  (List.length (Matrix.time h') <= List.length (Matrix.wave_height h'))%nat ->
  Reading.samples_on h d = Reading.samples_on h' d ->
  Matrix.day_cell h d = Matrix.day_cell h' d.
Proof.
  intros L L' E.
  rewrite (day_cell_by_samples h d L), (day_cell_by_samples h' d L'), E.
  reflexivity.
Qed.

Lemma day_cell_local_witness :
  Matrix.day_cell Samples.marine_hourly Samples.nov4
  = Matrix.day_cell
      (Matrix.mkHourly
         [Calendar.mkdatetime Samples.nov4 43200000000;
          Calendar.mkdatetime (Calendar.mkdate 2026 11 9) 0;
          Calendar.mkdatetime Samples.nov4 46800000000]
         [None; Some 4; None; Some 7])
      Samples.nov4.
Proof.
  apply (day_cell_local Samples.marine_hourly).
  - simpl. lia.
  - simpl. lia.
  - reflexivity.
Defined.

(* ------------------------------------------------------------------ *)
(** ** Colours of the matrix cells *)

Lemma contains_prefix (needle s : string) :
  String.prefix needle s = true -> Page.contains needle s = true.
Proof.
  intro P. destruct s; cbn [Page.contains]; rewrite P; reflexivity.
Qed.

Lemma lacks_app (b : ascii) (s1 s2 : string) :
  Bytes.lacks b (s1 ++ s2) = Bytes.lacks b s1 && Bytes.lacks b s2.
Proof.
  induction s1 as [|c s1 IH]; simpl; [reflexivity|].
  rewrite IH, andb_assoc. reflexivity.
Qed.

(** A text without the byte [b] contains no needle whose second byte is
    [b]. *)
Lemma contains_lacks (b c : ascii) (tl s : string) :
  Bytes.lacks b s = true ->
  Page.contains (String c (String b tl)) s = false.
Proof.
  induction s as [|a s IH]; intro L; [reflexivity|].
  simpl in L. apply andb_true_iff in L. destruct L as [_ L].
  cbn [Page.contains]. rewrite (IH L), orb_false_r.
  cbn [String.prefix].
  destruct (Ascii.ascii_dec c a); [|reflexivity].
  destruct s as [|a' s']; [reflexivity|].
  cbn [String.prefix].
  destruct (Ascii.ascii_dec b a') as [->|]; [|reflexivity].
  simpl in L. rewrite Ascii.eqb_refl in L. discriminate L.
Qed.

Section PlainText.
Variable b : ascii.
Hypothesis not_plain :
  Bytes.lacks b "0123456789-." = true.

Lemma lacks_uint (d : Decimal.uint) :
  Bytes.lacks b (NilEmpty.string_of_uint d) = true.
Proof.
  pose proof not_plain as H. simpl in H.
  repeat (apply andb_true_iff in H; destruct H as [? H]).
  induction d; simpl; rewrite ?IHd; auto using andb_true_intro.
Qed.

Lemma lacks_str_int (n : Z) : Bytes.lacks b (PyNum.str_int n) = true.
Proof.
  pose proof not_plain as H. simpl in H.
  repeat (apply andb_true_iff in H; destruct H as [? H]).
  unfold PyNum.str_int, NilZero.string_of_int, NilZero.string_of_uint.
  destruct (Z.to_int n) as [d|d]; destruct d eqn:E; simpl;
    rewrite <- ?E; rewrite ?lacks_uint; auto using andb_true_intro;
    subst d; simpl; rewrite ?lacks_uint; auto using andb_true_intro.
Qed.

Lemma lacks_format_1f (x : Q) : Bytes.lacks b (PyNum.format_1f x) = true.
Proof.
  pose proof not_plain as H.
  change "0123456789-."%string with ("0123456789" ++ "-" ++ ".")%string in H.
  rewrite !lacks_app, !andb_true_iff in H. destruct H as [_ [Hm Hp]].
  unfold PyNum.format_1f.
  rewrite !lacks_app, !lacks_str_int, Hp.
  destruct (PyNum.ltb x 0); [rewrite Hm|]; reflexivity.
Qed.

End PlainText.

Lemma lacks_tide_name (b : ascii) (moon_age : Q) :
  Bytes.lacks b "大潮中潮小潮長潮/若潮" = true ->
  Bytes.lacks b (Lunar.get_tide_name moon_age) = true.
Proof.
  intro H. unfold Lunar.get_tide_name.
  change "大潮中潮小潮長潮/若潮"%string
    with ("大潮" ++ "中潮" ++ "小潮" ++ "長潮/若潮")%string in H.
  rewrite !lacks_app, !andb_true_iff in H.
  destruct H as [H1 [H2 [H3 H4]]].
  repeat match goal with
         | |- context [if ?c then _ else _] => destruct c
         end; assumption.
Qed.

(** The part of a summary text after the sea-state label holds neither
    the byte 0x99 nor the byte 0xB3. *)
Lemma summary_tail_lacks (b : ascii) (avg_wave moon_age_val : Q) :
  b = Bytes.b99 \/ b = Bytes.bB3 ->
  Bytes.lacks b
    (" " ++ PyNum.format_1f avg_wave ++ "m ("
     ++ Lunar.get_tide_name moon_age_val ++ ", 月齢"
     ++ PyNum.format_1f moon_age_val ++ ")") = true.
Proof.
  intros [->| ->];
    change (" " ++ PyNum.format_1f avg_wave ++ "m ("
            ++ Lunar.get_tide_name moon_age_val ++ ", 月齢"
            ++ PyNum.format_1f moon_age_val ++ ")")%string
      with (" " ++ (PyNum.format_1f avg_wave ++ ("m ("
            ++ (Lunar.get_tide_name moon_age_val ++ (", 月齢"
            ++ (PyNum.format_1f moon_age_val ++ ")"))))))%string;
    rewrite !lacks_app, !lacks_format_1f, lacks_tide_name;
    reflexivity.
Qed.

(** X11. The colour of a matrix cell follows its sea state: a summary
    with an average of at least 2.5 is styled red and bold, one in
    [[1.5, 2.5)] orange and bold, any other summary blue and bold, and
    the three degraded cells keep black and normal.  Neither the tide
    name nor the digits of a summary can trigger another colour. *)
Theorem cell_colour :
  (forall avg_wave moon_age_val : Q,
     let style :=
       Page.highlight_status
         (Matrix.cell_text (Matrix.Summary avg_wave moon_age_val)) in
     (2.5 <= avg_wave -> style = "color: red; font-weight: bold"%string) /\
     (1.5 <= avg_wave -> avg_wave < 2.5 ->
      style = "color: orange; font-weight: bold"%string) /\
     (avg_wave < 1.5 -> style = "color: blue; font-weight: bold"%string)) /\
  (forall c : Matrix.cell,
     c = Matrix.NoData \/ c = Matrix.NoCoverage \/ c = Matrix.FetchFailed ->
     Page.highlight_status (Matrix.cell_text c)
     = "color: black; font-weight: normal"%string).
Proof.
  split.
  - intros avg_wave moon_age_val style. subst style.
    pose proof (summary_tail_lacks Bytes.b99 avg_wave moon_age_val
                  (or_introl eq_refl)) as T99.
    pose proof (summary_tail_lacks Bytes.bB3 avg_wave moon_age_val
                  (or_intror eq_refl)) as TB3.
    unfold Matrix.cell_text, Wave.get_wave_status_text.
    set (tl := (" " ++ PyNum.format_1f avg_wave ++ "m ("
                ++ Lunar.get_tide_name moon_age_val ++ ", 月齢"
                ++ PyNum.format_1f moon_age_val ++ ")")%string) in *.
    split; [|split].
    + intro H. apply geb_true in H. rewrite H.
      unfold Page.highlight_status.
      rewrite (contains_prefix "時化" ("時化" ++ tl)); reflexivity.
    + intros H1 H2. apply geb_true in H1. apply geb_false in H2.
      rewrite H2, H1. unfold Page.highlight_status.
      assert (N : Page.contains "時化" ("注意" ++ tl) = false).
      { apply (contains_lacks Bytes.b99).
        rewrite lacks_app, T99. reflexivity. }
      rewrite N.
      rewrite (contains_prefix "注意" ("注意" ++ tl)); reflexivity.
    + intro H.
      assert (H2 : avg_wave < 2.5) by lra.
      apply geb_false in H. apply geb_false in H2. rewrite H2, H.
      unfold Page.highlight_status.
      assert (N1 : Page.contains "時化" ("凪" ++ tl) = false).
      { apply (contains_lacks Bytes.b99).
        rewrite lacks_app, T99. reflexivity. }
      assert (N2 : Page.contains "注意" ("凪" ++ tl) = false).
      { apply (contains_lacks Bytes.bB3).
        rewrite lacks_app, TB3. reflexivity. }
      rewrite N1, N2.
      rewrite (contains_prefix "凪" ("凪" ++ tl)); reflexivity.
  - intros c [->|[->| ->]]; vm_compute; reflexivity.
Qed.

Lemma cell_colour_witness :
  Page.highlight_status (Matrix.cell_text (Matrix.Summary 2.6 1))
  = "color: red; font-weight: bold"%string /\
  Page.highlight_status (Matrix.cell_text (Matrix.Summary 2 23.4))
  = "color: orange; font-weight: bold"%string /\
  Page.highlight_status (Matrix.cell_text Matrix.NoData)
  = "color: black; font-weight: normal"%string.
Proof.
  destruct cell_colour as [S D].
  destruct (S 2.6 1) as [R _]. destruct (S 2 23.4) as [_ [O _]].
  split; [|split].
  - apply R. discriminate.
  - apply O; [discriminate|reflexivity].
  - apply D. left. reflexivity.
Defined.

(* ------------------------------------------------------------------ *)
(** ** Wind table: missing data, agreement of banner and cells, window *)













(* ------------------------------------------------------------------ *)
(** ** Sidebar default and image proxy *)

Lemma str_in_In (x : string) (keys : list string) :
  Page.str_in x keys = true <-> In x keys.
Proof.
  unfold Page.str_in. rewrite existsb_exists. split.
  - intros [y [Hy E]]. apply String.eqb_eq in E. subst y. exact Hy.
  - intro H. exists x. split; [exact H|apply String.eqb_refl].
Qed.

Lemma list_index_first (x : string) (keys : list string) :
  In x keys ->
  exists i : nat,
    Page.list_index x keys = Ok i /\
    nth_error keys i = Some x /\
    (forall j, (j < i)%nat -> nth_error keys j <> Some x).
Proof.
  induction keys as [|k rest IH]; intro H; [contradiction|].
  simpl. destruct (String.eqb k x) eqn:E.
  - apply String.eqb_eq in E. subst k. exists 0%nat.
    repeat split. intros j Hj. lia.
  - apply String.eqb_neq in E.
    destruct H as [H|H]; [contradiction|].
    destruct (IH H) as [i [Hi [Hn Hfirst]]].
    exists (S i). rewrite Hi. repeat split; [exact Hn|].
    intros [|j] Hj; simpl.
    + intro C. injection C as C. contradiction.
    + apply Hfirst. lia.
Qed.

(** X16. The default of the location select box never raises: when
    "千葉 勝浦" is among the keys the index is the position of its first
    occurrence, and otherwise it is 0. *)
Theorem default_index_selects (keys : list string) :
  exists i : nat,
    Page.default_index keys = Ok i /\
    (In "千葉 勝浦"%string keys ->
     nth_error keys i = Some "千葉 勝浦"%string /\
     (forall j, (j < i)%nat -> nth_error keys j <> Some "千葉 勝浦"%string)) /\
    (~ In "千葉 勝浦"%string keys -> i = 0%nat).
Proof.
  unfold Page.default_index.
  destruct (Page.str_in "千葉 勝浦" keys) eqn:S.
  - apply str_in_In in S.
    destruct (list_index_first _ _ S) as [i [Hi [Hn Hfirst]]].
    exists i. split; [exact Hi|]. split; [intros _; split; assumption|].
    intro N. contradiction.
  - exists 0%nat. split; [reflexivity|]. split; [|reflexivity].
    intro H. apply str_in_In in H. congruence.
Qed.

Lemma default_index_selects_witness :
  exists i : nat,
    Page.default_index Matrix.marine_keys = Ok i /\
    (In "千葉 勝浦"%string Matrix.marine_keys ->
     nth_error Matrix.marine_keys i = Some "千葉 勝浦"%string /\
     (forall j, (j < i)%nat ->
        nth_error Matrix.marine_keys j <> Some "千葉 勝浦"%string)) /\
    (~ In "千葉 勝浦"%string Matrix.marine_keys -> i = 0%nat).
Proof. exact (default_index_selects Matrix.marine_keys). Defined.

Lemma prefix_app (a rest : string) : String.prefix a (a ++ rest) = true.
Proof.
  induction a as [|c a IH]; [destruct rest; reflexivity|].
  simpl. destruct (Ascii.ascii_dec c c); [exact IH|contradiction].
Qed.

Lemma replace_from_skip (old new a rest : string) :
  Page.replace_from old new (String.length a) (a ++ rest)
  = Page.replace_from old new 0 rest.
Proof.
  induction a as [|c a IH]; [reflexivity|exact IH].
Qed.

Lemma replace_prefix (old new rest : string) :
  old <> ""%string ->
  Page.replace old new (old ++ rest)
  = (new ++ Page.replace old new rest)%string.
Proof.
  intro Ne. destruct old as [|c old']; [contradiction|].
  unfold Page.replace.
  change (String c old' ++ rest)%string with (String c (old' ++ rest)).
  cbn [Page.replace_from].
  change (String c (old' ++ rest)) with (String c old' ++ rest)%string.
  rewrite prefix_app.
  replace (String.length (String c old') - 1)%nat with (String.length old')
    by (simpl; lia).
  rewrite replace_from_skip. reflexivity.
Qed.

Lemma replace_absent (old new s : string) :
  Page.contains old s = false -> Page.replace old new s = s.
Proof.
  unfold Page.replace.
  induction s as [|c s IH]; intro N; [reflexivity|].
  cbn [Page.contains] in N. apply orb_false_iff in N. destruct N as [P N].
  cbn [Page.replace_from]. rewrite P, (IH N). reflexivity.
Qed.

(** X17. For an address whose part after the scheme holds no further
    "https://", [get_proxy_url] drops the scheme and wraps the rest:
    the address with and without the leading "https://" give the same
    proxy address.  The removal is one pass from the left, so a scheme
    that only forms after the removal stays in the result. *)
Theorem proxy_url_of (rest : string) :
  (Page.contains "https://" rest = false ->
   Page.get_proxy_url ("https://" ++ rest)
   = ("https://wsrv.nl/?url=" ++ rest ++ "&output=webp")%string /\
   Page.get_proxy_url rest
   = ("https://wsrv.nl/?url=" ++ rest ++ "&output=webp")%string) /\
  Page.get_proxy_url ("ht" ++ "https://" ++ "tps://" ++ rest)
  = ("https://wsrv.nl/?url=" ++ "https://"
     ++ Page.replace "https://" "" rest ++ "&output=webp")%string.
Proof.
  split.
  - intro N. unfold Page.get_proxy_url.
    rewrite (replace_prefix "https://" "" rest) by discriminate.
    rewrite (replace_absent _ _ _ N). split; reflexivity.
  - assert (R : Page.replace "https://" ""
                  ("ht" ++ "https://" ++ "tps://" ++ rest)
                = ("https://" ++ Page.replace "https://" "" rest)%string).
    { unfold Page.replace.
      change (Page.replace_from "https://" "" 0
                ("ht" ++ "https://" ++ "tps://" ++ rest))
        with (String "h" (String "t"
                (Page.replace_from "https://" "" (String.length "ttps://")
                   ("ttps://" ++ "tps://" ++ rest)))).
      rewrite (replace_from_skip "https://" "" "ttps://" ("tps://" ++ rest)).
      reflexivity. }
    unfold Page.get_proxy_url. rewrite R. reflexivity.
Qed.

Lemma proxy_url_of_witness :
  Page.get_proxy_url
    ("https://"
     ++ "www.data.jma.go.jp/gmd/kaikyou/kaikyou/tile/jp/png/sst_now.png")
  = ("https://wsrv.nl/?url="
     ++ "www.data.jma.go.jp/gmd/kaikyou/kaikyou/tile/jp/png/sst_now.png"
     ++ "&output=webp")%string.
Proof.
  pose proof (proxy_url_of
    "www.data.jma.go.jp/gmd/kaikyou/kaikyou/tile/jp/png/sst_now.png")
    as [W _].
  assert (N : Page.contains "https://"
                "www.data.jma.go.jp/gmd/kaikyou/kaikyou/tile/jp/png/sst_now.png"
              = false) by (vm_compute; reflexivity).
  destruct (W N) as [W1 _]. exact W1.
Defined.

(* ------------------------------------------------------------------ *)
(** ** Column labels *)

Example date_col_samples :
  Columns.date_col Samples.nov3 = "11/03"%string /\
  Columns.date_col (Calendar.mkdate 2027 1 31) = "01/31"%string /\
  Columns.row_dict "徳島"
    [(Samples.nov3, "-"%string); (Calendar.mkdate 2027 11 3, "データなし"%string)]
  = [("拠点", "徳島"); ("11/03", "データなし")]%string.
Proof. repeat split; vm_compute; reflexivity. Qed.

Lemma days_before_year_step (y : Z) :
  Calendar.days_before_year (y + 1)
  = (Calendar.days_before_year y + 365
     + (if Calendar.is_leap y then 1 else 0))%Z.
Proof.
  unfold Calendar.days_before_year, Calendar.is_leap.
  replace (y + 1 - 1)%Z with y by lia.
  destruct (y mod 4 =? 0)%Z eqn:E4; destruct (y mod 100 =? 0)%Z eqn:E100;
    destruct (y mod 400 =? 0)%Z eqn:E400; simpl;
    rewrite ?Z.eqb_eq, ?Z.eqb_neq in *;
    Z.div_mod_to_equations; lia.
Qed.

Lemma days_before_year_grows (y : Z) (k : nat) :
  (Calendar.days_before_year y + 365 * Z.of_nat k
   <= Calendar.days_before_year (y + Z.of_nat k))%Z.
Proof.
  induction k as [|k IH].
  - replace (y + Z.of_nat 0)%Z with y by lia. lia.
  - replace (y + Z.of_nat (S k))%Z with (y + Z.of_nat k + 1)%Z by lia.
    rewrite days_before_year_step.
    destruct (Calendar.is_leap (y + Z.of_nat k)); lia.
Qed.

(** The same month and day in a later year is at least 365 days later. *)
Lemma same_day_later_year (y1 y2 m dd : Z) :
  (y1 < y2)%Z ->
  (Calendar.toordinal (Calendar.mkdate y1 m dd) + 365
   <= Calendar.toordinal (Calendar.mkdate y2 m dd))%Z.
Proof.
  intro L. unfold Calendar.toordinal, Calendar.days_before_month. simpl.
  pose proof (days_before_year_step y1) as S1.
  pose proof (days_before_year_grows (y1 + 1) (Z.to_nat (y2 - y1 - 1))) as G.
  replace (y1 + 1 + Z.of_nat (Z.to_nat (y2 - y1 - 1)))%Z with y2 in G by lia.
  destruct ((2 <? m)%Z); simpl;
    destruct (Calendar.is_leap y1); destruct (Calendar.is_leap y2); lia.
Qed.

Lemma date_col_month_day_check :
  let months := map Z.of_nat (seq 1 12) in
  let days := map Z.of_nat (seq 1 31) in
  forallb
    (fun a =>
       forallb
         (fun b =>
            implb (String.eqb (Columns.pad2 (fst a) ++ "/"
                               ++ Columns.pad2 (snd a))
                              (Columns.pad2 (fst b) ++ "/"
                               ++ Columns.pad2 (snd b)))
                  ((fst a =? fst b)%Z && (snd a =? snd b)%Z))
         (list_prod months days))
    (list_prod months days) = true.
Proof. vm_compute. reflexivity. Qed.

Lemma in_range (lo len : nat) (n : Z) :
  (Z.of_nat lo <= n < Z.of_nat (lo + len))%Z ->
  In n (map Z.of_nat (seq lo len)).
Proof.
  intro H. apply in_map_iff. exists (Z.to_nat n).
  split; [lia|]. apply in_seq. lia.
Qed.

(** Equal labels mean equal month and equal day. *)
Lemma date_col_month_day (d1 d2 : Calendar.date) :
  Columns.month_day_ok d1 -> Columns.month_day_ok d2 ->
  Columns.date_col d1 = Columns.date_col d2 ->
  Calendar.month d1 = Calendar.month d2 /\ Calendar.day d1 = Calendar.day d2.
Proof.
  intros [M1 D1] [M2 D2] E.
  pose proof date_col_month_day_check as C. cbv zeta in C.
  rewrite forallb_forall in C.
  assert (P1 : In (Calendar.month d1, Calendar.day d1)
                  (list_prod (map Z.of_nat (seq 1 12))
                             (map Z.of_nat (seq 1 31)))).
  { apply in_prod; apply in_range; simpl; lia. }
  assert (P2 : In (Calendar.month d2, Calendar.day d2)
                  (list_prod (map Z.of_nat (seq 1 12))
                             (map Z.of_nat (seq 1 31)))).
  { apply in_prod; apply in_range; simpl; lia. }
  specialize (C _ P1). rewrite forallb_forall in C. specialize (C _ P2).
  cbn [fst snd] in C. unfold Columns.date_col in E.
  rewrite E, String.eqb_refl in C. simpl in C.
  apply andb_true_iff in C. destruct C as [Cm Cd].
  apply Z.eqb_eq in Cm. apply Z.eqb_eq in Cd. split; assumption.
Qed.

Lemma date_col_same_or_far (d1 d2 : Calendar.date) :
  Columns.month_day_ok d1 -> Columns.month_day_ok d2 ->
  Columns.date_col d1 = Columns.date_col d2 ->
  d1 = d2 \/ (365 <= Z.abs (Calendar.sub_days d2 d1))%Z.
Proof.
  intros O1 O2 E.
  destruct (date_col_month_day d1 d2 O1 O2 E) as [Em Ed].
  destruct d1 as [y1 m1 dd1], d2 as [y2 m2 dd2]. simpl in Em, Ed.
  subst m2 dd2. unfold Calendar.sub_days.
  destruct (Z.lt_trichotomy y1 y2) as [L|[->|L]].
  - right. pose proof (same_day_later_year y1 y2 m1 dd1 L). lia.
  - left. reflexivity.
  - right. pose proof (same_day_later_year y2 y1 m1 dd1 L). lia.
Qed.

(** X18. Two dates with the same column label "mm/dd" are the same day
    or lie at least 365 days apart, so the labels of the dates of a
    horizon shorter than a year are pairwise different. *)
Theorem date_col_collision (d1 d2 : Calendar.date) :
  Columns.month_day_ok d1 -> Columns.month_day_ok d2 ->
  Columns.date_col d1 = Columns.date_col d2 ->
  d1 = d2 \/ (365 <= Z.abs (Calendar.sub_days d2 d1))%Z.
Proof. exact (date_col_same_or_far d1 d2). Qed.

Lemma date_col_collision_witness :
  Calendar.mkdate 2026 11 3 = Calendar.mkdate 2027 11 3 \/
  (365 <= Z.abs (Calendar.sub_days (Calendar.mkdate 2027 11 3)
                   (Calendar.mkdate 2026 11 3)))%Z.
Proof.
  apply date_col_collision.
  - unfold Columns.month_day_ok. simpl. lia.
  - unfold Columns.month_day_ok. simpl. lia.
  - reflexivity.
Defined.

Lemma dict_set_fresh (k v : string) (d : list (string * string)) :
  ~ In k (map fst d) -> Columns.dict_set k v d = d ++ [(k, v)].
Proof.
  induction d as [|[k' v'] rest IH]; intro N; [reflexivity|].
  simpl. destruct (String.eqb k' k) eqn:E.
  - apply String.eqb_eq in E. exfalso. apply N. left. exact E.
  - rewrite IH; [reflexivity|]. intro H. apply N. right. exact H.
Qed.

Lemma dict_fold_fresh (row : list (Calendar.date * string)) :
  forall acc : list (string * string),
    NoDup (map (fun kv => Columns.date_col (fst kv)) row) ->
    (forall kv, In kv row ->
       ~ In (Columns.date_col (fst kv)) (map fst acc)) ->
    fold_left
      (fun acc kv => Columns.dict_set (Columns.date_col (fst kv)) (snd kv) acc)
      row acc
    = acc ++ map (fun kv => (Columns.date_col (fst kv), snd kv)) row.
Proof.
  induction row as [|[d c] rest IH]; intros acc ND Fresh; simpl.
  - rewrite app_nil_r. reflexivity.
  - simpl in ND. apply NoDup_cons_iff in ND. destruct ND as [Nin ND].
    rewrite dict_set_fresh by (apply (Fresh (d, c)); left; reflexivity).
    rewrite IH; [rewrite <- app_assoc; reflexivity|exact ND|].
    intros kv Hkv. rewrite map_app, in_app_iff. simpl.
    intros [H|[H|[]]].
    + apply (Fresh kv); [right; exact Hkv|exact H].
    + apply Nin. rewrite H. apply in_map_iff. exists kv.
      split; [reflexivity|exact Hkv].
Qed.

Lemma NoDup_map_in {A B : Type} (f : A -> B) (l : list A) :
  (forall x y, In x l -> In y l -> f x = f y -> x = y) ->
  NoDup l -> NoDup (map f l).
Proof.
  intros Inj ND. induction ND as [|x l Nin _ IH]; simpl; constructor.
  - intro H. apply in_map_iff in H. destruct H as [y [E Hy]].
    apply Nin. rewrite (Inj x y); [exact Hy|left; reflexivity|
                                   right; exact Hy|symmetry; exact E].
  - apply IH. intros a b Ha Hb. apply Inj; right; assumption.
Qed.

(** A label is plain text and differs from the key of the location. *)
Lemma date_col_not_location (d : Calendar.date) :
  Columns.date_col d <> "拠点"%string.
Proof.
  intro E.
  assert (P : Bytes.lacks (Ascii.ascii_of_nat 230) "0123456789-." = true)
    by reflexivity.
  assert (L : Bytes.lacks (Ascii.ascii_of_nat 230) (Columns.date_col d) = true).
  { unfold Columns.date_col, Columns.pad2.
    destruct (Calendar.month d <? 10)%Z; destruct (Calendar.day d <? 10)%Z;
      rewrite !lacks_app, !(lacks_str_int _ P); reflexivity. }
  rewrite E in L. vm_compute in L. discriminate L.
Qed.

(** X19. For dates that are pairwise different and less than 365 days
    apart, the dictionary of a row holds the location first and then one
    entry per date, in order, each under its own label: no cell
    overwrites another.  With two dates of the same label the later cell
    replaces the earlier one and the row has a single column. *)
Theorem row_dict_columns (loc_name : string) :
  (forall row : list (Calendar.date * string),
     Forall Columns.month_day_ok (map fst row) ->
     NoDup (map fst row) ->
     (forall d1 d2, In d1 (map fst row) -> In d2 (map fst row) ->
        (Z.abs (Calendar.sub_days d2 d1) < 365)%Z) ->
     Columns.row_dict loc_name row
     = ("拠点"%string, loc_name)
       :: map (fun kv => (Columns.date_col (fst kv), snd kv)) row) /\
  (forall (d1 d2 : Calendar.date) (c1 c2 : string),
     Columns.date_col d1 = Columns.date_col d2 ->
     Columns.row_dict loc_name [(d1, c1); (d2, c2)]
     = [("拠点"%string, loc_name); (Columns.date_col d1, c2)]).
Proof.
  split.
  - intros row Ok ND Near. unfold Columns.row_dict.
    rewrite dict_fold_fresh; [reflexivity| |].
    + rewrite <- (map_map fst Columns.date_col).
      apply NoDup_map_in; [|exact ND].
      intros x y Hx Hy E. rewrite Forall_forall in Ok.
      destruct (date_col_same_or_far x y (Ok x Hx) (Ok y Hy) E) as [->|Far];
        [reflexivity|].
      specialize (Near x y Hx Hy). lia.
    + intros kv _ [H|[]]. simpl in H.
      exact (date_col_not_location (fst kv) (eq_sym H)).
  - intros d1 d2 c1 c2 E. unfold Columns.row_dict.
    cbn [fold_left Columns.dict_set fst snd].
    assert (N1 : String.eqb "拠点" (Columns.date_col d1) = false).
    { apply String.eqb_neq. intro C.
      exact (date_col_not_location d1 (eq_sym C)). }
    assert (N2 : String.eqb "拠点" (Columns.date_col d2) = false).
    { apply String.eqb_neq. intro C.
      exact (date_col_not_location d2 (eq_sym C)). }
    rewrite N1. cbn [Columns.dict_set].
    rewrite N2, E, String.eqb_refl. reflexivity.
Qed.

Lemma row_dict_columns_witness :
  Columns.row_dict "徳島"
    [(Samples.nov3, "-"%string); (Samples.nov4, "データなし"%string)]
  = ("拠点"%string, "徳島"%string)
    :: map (fun kv => (Columns.date_col (fst kv), snd kv))
         [(Samples.nov3, "-"%string); (Samples.nov4, "データなし"%string)].
Proof.
  pose proof (row_dict_columns "徳島") as [W _].
  apply W.
  - repeat constructor; simpl; lia.
  - repeat constructor; simpl.
    + intros [H|[]]. discriminate H.
    + intros [].
  - intros d1 d2 H1 H2. simpl in H1, H2.
    destruct H1 as [<-|[<-|[]]]; destruct H2 as [<-|[<-|[]]];
      vm_compute; reflexivity.
Defined.
